(** * harvest_toolgap.py: the job runner, the request dispatcher and the
      lifecycle of the temporary vector store

    A shallow embedding of [src/harvest_toolgap.py].  The OpenAI client, the
    clock and the local file system are the program's environment:

    - the remote API is a script of replies, consumed one per call in the
      order the program makes its calls; a call that finds the script empty
      never returns ([Hang]);
    - every call, sleep and output write is recorded, in order, in the list of
      events a computation produces;
    - a Python exception is a value of [exn]; computations are functions
      [World -> outcome A * list event * World]. *)

From Stdlib Require Import String Ascii List QArith Lia.
From stdpp Require Import gmap strings.
Import ListNotations.

Open Scope string_scope.
Open Scope list_scope.

(** ** Strings *)

(** [str.lower] on the ASCII letters.  The dispatch of [process_job] compares
    the lowered type with "web" and "file"; no character outside ASCII lowers
    to one of the letters of these two words, so bytes above 127 are left as
    they are. *)
Definition lower_ascii (c : ascii) : ascii :=
  let n := nat_of_ascii c in
  if (65 <=? n)%nat && (n <=? 90)%nat then ascii_of_nat (n + 32) else c.

Fixpoint lower (s : string) : string :=
  match s with
  | EmptyString => EmptyString
  | String c s' => String (lower_ascii c) (lower s')
  end.

(** Python truthiness of a [str]. *)
Definition truthy (s : string) : bool :=
  match s with EmptyString => false | _ => true end.

(** [sub in s]. *)
Definition Contains (s sub : string) : Prop :=
  exists p q : string, s = String.append p (String.append sub q).

(** ** Exceptions *)

(** The classes the handlers of the program tell apart, by [isinstance] and
    by the attributes they read.  [APIStatusError], [RateLimitError] and
    [APIConnectionError] are subclasses of [APIError]; [APIStatusError]
    stands for every subclass of [APIError] that carries [status_code]
    but [RateLimitError], [APIConnectionError] for those that do not
    ([APITimeoutError] is one).  Every other subclass of [Exception] is
    [OtherException] with its class name.  What is not an [Exception]
    ([KeyboardInterrupt], [SystemExit]) is not raised by [process_job] and is
    left out. *)
Inductive pyclass : Type :=
| FileNotFoundError
| ValueError
| KeyError
| RuntimeError
| APIError
| APIStatusError
| RateLimitError
| APIConnectionError
| OtherException (name : string).

Record exn : Type := mkExn { cls : pyclass; message : string }.

Definition isinstance_FileNotFoundError (e : exn) : bool :=
  match cls e with FileNotFoundError => true | _ => false end.

Definition isinstance_ValueError (e : exn) : bool :=
  match cls e with ValueError => true | _ => false end.

Definition isinstance_APIError (e : exn) : bool :=
  match cls e with
  | APIError | APIStatusError | RateLimitError | APIConnectionError => true
  | _ => false
  end.

(** [hasattr(e, "status_code")]: the attribute is set by [APIStatusError],
    not by [APIError] itself nor by [APIConnectionError]. *)
Definition has_status_code (e : exn) : bool :=
  match cls e with APIStatusError | RateLimitError => true | _ => false end.

Definition class_name (c : pyclass) : string :=
  match c with
  | FileNotFoundError => "FileNotFoundError"
  | ValueError => "ValueError"
  | KeyError => "KeyError"
  | RuntimeError => "RuntimeError"
  | APIError => "APIError"
  | APIStatusError => "APIStatusError"
  | RateLimitError => "RateLimitError"
  | APIConnectionError => "APIConnectionError"
  | OtherException name => name
  end.

(** What reading [e.status_code] raises when [e] has no such attribute. *)
Definition no_status_code (e : exn) : exn :=
  mkExn (OtherException "AttributeError")
    (String.append "'"
       (String.append (class_name (cls e)) "' object has no attribute 'status_code'")).

(** ** Data *)

(** A job is the dict [yaml.safe_load] gives for one entry of the job list:
    a mapping from field names to text, as in the job list the module
    documents; a field may be missing. *)
Abbreviation Job := (gmap string string).

(** An entry of the job list, which [cli] only checks to be a list: a
    mapping as above, or an entry on which the header line of the job loop
    raises [AttributeError], with its message: an entry that is no mapping
    has no [.get], and a [type] that is not text ([type:] with no value, a
    number) has no [.upper()]. *)
Inductive entry : Type :=
| Mapping (job : Job)
| BadEntry (message : string).

(** An object the client returns, with the attributes the program reads:
    [.id], [.status], [.last_error.message], [.output_text] and the items of
    [.output] (each already as [item.to_dict()]). *)
Record RemoteObject : Type := mkObj {
  obj_id : string;
  obj_status : string;
  obj_last_error : option string;
  obj_output_text : string;
  obj_output : list string
}.

(** The dict [run_web_search] and [run_file_search] return. *)
Record ResultRecord : Type := mkResult {
  r_query : string;
  r_created : string;
  r_model : string;
  r_vector_store_id : option string;
  r_output_text : string;
  r_output_structured : list string
}.

Inductive tool : Type :=
| web_search_preview
| file_search (vector_store_ids : list string).

(** The calls made on [client]. *)
Inductive call : Type :=
| files_create (file purpose : string)
| vector_stores_create (name : string)
| vector_stores_files_create (vector_store_id file_id : string)
| vector_stores_files_retrieve (vector_store_id file_id : string)
| vector_stores_delete (vector_store_id : string)
| files_delete (file_id : string)
| responses_create (model : string) (tools : list tool) (input : string).

Inductive reply : Type :=
| Returned (o : RemoteObject)
| Raised (e : exn).

(** The four [except] clauses of the job loop. *)
Inductive failure_class : Type :=
| InputFileNotFound
| ConfigurationError
| OpenAIAPIError
| UnexpectedError.

Inductive event : Type :=
| Remote (c : call) (answer : option reply)
| Sleep (seconds : Q)
| WriteText (path : string) (content : ResultRecord)
| MkDir (path : string)
| JobHeader (i : nat) (job : Job)
| JobError (i : nat) (k : failure_class) (e : exn)
| Summary (job_failures : nat).

(** ** The environment *)

Record World : Type := mkWorld {
  replies : list reply;   (* what the remote API answers, call after call *)
  clock : nat             (* how many times the clock has been read *)
}.

Record Env : Type := mkEnv {
  timestamp_at : nat -> string;      (* [_timestamp()] at the n-th reading *)
  path_exists : string -> bool;      (* [path.exists()] *)
  expanduser : string -> string;     (* [Path(p).expanduser()] *)
  path_stem : string -> string;      (* [path.stem] *)
  joinpath : string -> string -> string;  (* [outdir / out] *)
  open_error : string -> option exn;      (* [path.open("rb")] raising *)
  write_error : string -> option exn;     (* [mkdir] or [write_text] raising *)
  mkdir_error : string -> option exn;     (* [outdir.mkdir] of the run raising *)
  POLL_INTERVAL_S : Q
}.

(** ** Computations *)

Inductive outcome (A : Type) : Type :=
| Ret (a : A)
| Exc (e : exn)
| Hang.
Arguments Ret {A} a.
Arguments Exc {A} e.
Arguments Hang {A}.

Definition M (A : Type) : Type := World -> outcome A * list event * World.

Definition ret {A} (a : A) : M A := fun w => (Ret a, [], w).

Definition raise {A} (e : exn) : M A := fun w => (Exc e, [], w).

Definition bind {A B} (m : M A) (k : A -> M B) : M B := fun w =>
  match m w with
  | (Ret a, evs, w') => let '(o, evs', w'') := k a w' in (o, evs ++ evs', w'')
  | (Exc e, evs, w') => (Exc e, evs, w')
  | (Hang, evs, w') => (Hang, evs, w')
  end.

Notation "'let*' x ':=' m 'in' k" := (bind m (fun x => k))
  (at level 10, x name, m at level 100, k at level 200).
Notation "m '>>' k" := (bind m (fun _ => k))
  (at level 100, k at level 200, right associativity).

(** [try: m  except Exception as e: handler e]. *)
Definition try_except {A} (m : M A) (handler : exn -> M A) : M A := fun w =>
  match m w with
  | (Exc e, evs, w') => let '(o, evs', w'') := handler e w' in (o, evs ++ evs', w'')
  | r => r
  end.

(** [try: m  except: pass]. *)
Definition ignore_errors {A} (m : M A) : M unit := fun w =>
  match m w with
  | (Ret _, evs, w') => (Ret tt, evs, w')
  | (Exc _, evs, w') => (Ret tt, evs, w')
  | (Hang, evs, w') => (Hang, evs, w')
  end.

(** [try: m  finally: fin]. *)
Definition try_finally {A} (m : M A) (fin : M unit) : M A := fun w =>
  match m w with
  | (Hang, evs, w') => (Hang, evs, w')
  | (o, evs, w') =>
      match fin w' with
      | (Ret _, evs', w'') => (o, evs ++ evs', w'')
      | (Exc e', evs', w'') => (Exc e', evs ++ evs', w'')
      | (Hang, evs', w'') => (Hang, evs ++ evs', w'')
      end
  end.

Definition emit (ev : event) : M unit := fun w => (Ret tt, [ev], w).

(** One call on [client]: the next reply of the script answers it. *)
Definition remote (c : call) : M RemoteObject := fun w =>
  match replies w with
  | [] => (Hang, [Remote c None], w)
  | r :: rest =>
      let w' := mkWorld rest (clock w) in
      match r with
      | Returned o => (Ret o, [Remote c (Some r)], w')
      | Raised e => (Exc e, [Remote c (Some r)], w')
      end
  end.

(** [while True: body], where [body] says whether it reached [break]. *)
Fixpoint while_true (fuel : nat) (body : M bool) : M unit :=
  match fuel with
  | O => fun w => (Hang, [], w)
  | S fuel' => let* brk := body in if brk then ret tt else while_true fuel' body
  end.

(** ** The program *)

Definition DEFAULT_WEB_MODEL : string := "gpt-4.1".
Definition DEFAULT_FILE_MODEL : string := "gpt-4o-mini".

Section Harvest.

Variable env : Env.

Definition _timestamp : M string := fun w =>
  (Ret (timestamp_at env (clock w)), [], mkWorld (replies w) (S (clock w))).

Definition smart_sleep (seconds : Q) : M unit :=
  if Qle_bool seconds 0 then ret tt else emit (Sleep seconds).

Definition run_web_search (query model : string) : M ResultRecord :=
  let* response := remote (responses_create model [web_search_preview] query) in
  let* created := _timestamp in
  ret (mkResult query created model None
         (obj_output_text response) (obj_output response)).

(** The body of the polling loop of [setup_file_search_vector_store]:
    [true] is [break]. *)
Definition poll_body (vector_store_id file_id : string) : M bool :=
  try_except
    (let* vs_file := remote (vector_stores_files_retrieve vector_store_id file_id) in
     if String.eqb (obj_status vs_file) "completed" then ret true
     else if String.eqb (obj_status vs_file) "failed" then
       let last_error :=
         match obj_last_error vs_file with
         | Some m => m
         | None => "Unknown error"
         end in
       raise (mkExn RuntimeError (String.append "File processing failed: " last_error))
     else smart_sleep (POLL_INTERVAL_S env) >> ret false)
    (fun e =>
       if isinstance_APIError e then
         smart_sleep (POLL_INTERVAL_S env * 2) >> ret false
       else
         ignore_errors (remote (vector_stores_delete vector_store_id)) >>
         ignore_errors (remote (files_delete file_id)) >>
         raise e).

(** Every turn of the loop that does not leave it has used one reply of the
    script, so one more turn than there are replies is enough. *)
Definition poll_loop (vector_store_id file_id : string) : M unit := fun w =>
  while_true (S (length (replies w))) (poll_body vector_store_id file_id) w.

Definition setup_file_search_vector_store (path : string) : M string :=
  (* 1. Upload the file *)
  let* file_obj :=
    try_except
      (match open_error env path with
       | Some e => raise e
       | None => remote (files_create path "assistants")
       end)
      (fun e => raise e) in
  (* 2. Create a temporary vector store *)
  let* ts := _timestamp in
  let vector_store_name :=
    String.append "temp_vs_" (String.append (path_stem env path) (String.append "_" ts)) in
  let* vector_store :=
    try_except
      (remote (vector_stores_create vector_store_name))
      (fun e =>
         ignore_errors (remote (files_delete (obj_id file_obj))) >>
         raise e) in
  (* 3. Add the file to the vector store *)
  let* vs_file :=
    try_except
      (remote (vector_stores_files_create (obj_id vector_store) (obj_id file_obj)))
      (fun e =>
         ignore_errors (remote (vector_stores_delete (obj_id vector_store))) >>
         ignore_errors (remote (files_delete (obj_id file_obj))) >>
         raise e) in
  (* 4. Wait for the file to be processed *)
  poll_loop (obj_id vector_store) (obj_id file_obj) >>
  ret (obj_id vector_store).

Definition cleanup_vector_store (vector_store_id : string) : M unit :=
  ignore_errors (remote (vector_stores_delete vector_store_id)).

Definition run_file_search (query vector_store_id model : string) : M ResultRecord :=
  let* response :=
    remote (responses_create model [file_search [vector_store_id]] query) in
  let* created := _timestamp in
  ret (mkResult query created model (Some vector_store_id)
         (obj_output_text response) (obj_output response)).

(** [job[key]]. *)
Definition getitem (job : Job) (key : string) : M string :=
  match job !! key with
  | Some v => ret v
  | None => raise (mkExn KeyError (String.append "'" (String.append key "'")))
  end.

(** [if not model: model = default], after [model = job.get("model")]. *)
Definition model_or (model : option string) (default : string) : string :=
  match model with
  | Some m => if truthy m then m else default
  | None => default
  end.

(** [out_path.parent.mkdir(...)] and [out_path.write_text(...)]. *)
Definition write_text (out_path : string) (result : ResultRecord) : M unit :=
  match write_error env out_path with
  | Some e => raise e
  | None => emit (WriteText out_path result)
  end.

(** The [file] branch of [process_job].  [vector_store_id] is [None] until
    [setup_file_search_vector_store] has returned: when a statement before
    the assignment raises, the [finally] block finds it [None] and does
    nothing, which is what [bind] does with an exception of [acquire]. *)
Definition file_job (job : Job) (model : string) : M ResultRecord :=
  let acquire : M string :=
    match job !! "file_path" with
    | None =>
        raise (mkExn ValueError "Job type 'file' requires 'file_path' for this script.")
    | Some file_path =>
        let path := expanduser env file_path in
        if negb (path_exists env path) then
          raise (mkExn FileNotFoundError (String.append "File not found at path: " path))
        else setup_file_search_vector_store path
    end in
  let* vector_store_id := acquire in
  try_finally
    (let* query := getitem job "query" in
     run_file_search query vector_store_id model)
    (if truthy vector_store_id then cleanup_vector_store vector_store_id
     else ret tt).

Definition process_job (job : Job) (outdir : string) (sleep_s : Q) : M unit :=
  let* ty := getitem job "type" in
  let job_type := lower ty in
  let model := job !! "model" in
  let* result :=
    if String.eqb job_type "web" then
      let* query := getitem job "query" in
      run_web_search query (model_or model DEFAULT_WEB_MODEL)
    else if String.eqb job_type "file" then
      file_job job (model_or model DEFAULT_FILE_MODEL)
    else raise (mkExn ValueError (String.append "Unknown job type: " job_type)) in
  (* write output *)
  let* out := getitem job "out" in
  let out_path := joinpath env outdir out in
  write_text out_path result >>
  (* polite pause *)
  smart_sleep sleep_s.

(** The [except] clauses of the job loop, in their order. *)
Definition classify (e : exn) : failure_class :=
  if isinstance_FileNotFoundError e then InputFileNotFound
  else if isinstance_ValueError e then ConfigurationError
  else if isinstance_APIError e then OpenAIAPIError
  else UnexpectedError.

(** [for i, job in enumerate(jobs, 1): ...], from job number [i] on.  The
    header line is outside the [try]: what it raises leaves the loop.  The
    message of the [except APIError] clause reads [e.status_code]: on an
    [APIError] without that attribute the clause itself raises
    [AttributeError], which the clauses after it do not catch. *)
Fixpoint job_loop (outdir : string) (sleep_s : Q) (i : nat) (jobs : list entry)
    (job_failures : nat) : M nat :=
  match jobs with
  | [] => ret job_failures
  | BadEntry message :: _ => raise (mkExn (OtherException "AttributeError") message)
  | Mapping job :: rest =>
      emit (JobHeader i job) >>
      let* job_failures :=
        try_except
          (process_job job outdir sleep_s >> ret job_failures)
          (fun e =>
             match classify e with
             | OpenAIAPIError =>
                 if has_status_code e
                 then emit (JobError i OpenAIAPIError e) >> ret (job_failures + 1)%nat
                 else raise (no_status_code e)
             | k => emit (JobError i k e) >> ret (job_failures + 1)%nat
             end) in
      job_loop outdir sleep_s (S i) rest job_failures
  end.

End Harvest.

(** What reading the jobs file gives. *)
Inductive jobs_file : Type :=
| JobList (jobs : list entry) (* [yaml.safe_load] returned a list *)
| NotAList                    (* it returned something else: [TypeError] *)
| NoSuchFile                  (* [FileNotFoundError] *)
| BadYAML                     (* [yaml.YAMLError] *)
| Unreadable.                 (* any other exception *)

Record Args : Type := mkArgs {
  args_jobs : jobs_file;
  args_outdir : string;
  args_sleep : Q;
  args_poll_interval : Q
}.

(** [POLL_INTERVAL_S = args.poll_interval]. *)
Definition set_POLL_INTERVAL_S (env : Env) (q : Q) : Env :=
  mkEnv (timestamp_at env) (path_exists env) (expanduser env) (path_stem env)
        (joinpath env) (open_error env) (write_error env) (mkdir_error env) q.

(** [cli()].  The value is the status the process exits with: [sys.exit]
    with a message exits with 1, returning from [cli] exits with 0. *)
Definition cli (env0 : Env) (args : Args) (OPENAI_API_KEY : option string) : M nat :=
  let env := set_POLL_INTERVAL_S env0 (args_poll_interval args) in
  if negb (truthy (default "" OPENAI_API_KEY)) then ret 1%nat
  else
    let* run_timestamp := _timestamp env in
    let outdir := joinpath env (args_outdir args) run_timestamp in
    (match mkdir_error env outdir with
     | Some e => raise e
     | None => emit (MkDir outdir)
     end) >>
    match args_jobs args with
    | JobList jobs =>
        let* job_failures := job_loop env outdir (args_sleep args) 1 jobs 0 in
        emit (Summary job_failures) >>
        ret 0%nat
    | _ => ret 1%nat
    end.

(** The exit status of the process, when it ends: an exception that leaves
    [cli] ends it with status 1. *)
Definition exit_status (o : outcome nat) : option nat :=
  match o with
  | Ret n => Some n
  | Exc _ => Some 1%nat
  | Hang => None
  end.

(** ** Observations on the events of a computation *)

(** The calls made on the client, in order. *)
Fixpoint calls (evs : list event) : list call :=
  match evs with
  | [] => []
  | Remote c _ :: evs' => c :: calls evs'
  | _ :: evs' => calls evs'
  end.

(** The vector stores [client.vector_stores.delete] was called on. *)
Fixpoint vs_deleted (evs : list event) : list string :=
  match evs with
  | [] => []
  | Remote (vector_stores_delete v) _ :: evs' => v :: vs_deleted evs'
  | _ :: evs' => vs_deleted evs'
  end.

(** The files [client.files.delete] was called on. *)
Fixpoint files_deleted (evs : list event) : list string :=
  match evs with
  | [] => []
  | Remote (files_delete f) _ :: evs' => f :: files_deleted evs'
  | _ :: evs' => files_deleted evs'
  end.

(** The identifiers of the vector stores [client.vector_stores.create]
    returned. *)
Fixpoint vs_created (evs : list event) : list string :=
  match evs with
  | [] => []
  | Remote (vector_stores_create _) (Some (Returned o)) :: evs' =>
      obj_id o :: vs_created evs'
  | _ :: evs' => vs_created evs'
  end.

(** The identifiers of the files [client.files.create] returned. *)
Fixpoint files_uploaded (evs : list event) : list string :=
  match evs with
  | [] => []
  | Remote (files_create _ _) (Some (Returned o)) :: evs' =>
      obj_id o :: files_uploaded evs'
  | _ :: evs' => files_uploaded evs'
  end.

(** The paths [write_text] wrote, in order. *)
Fixpoint written (evs : list event) : list string :=
  match evs with
  | [] => []
  | WriteText p _ :: evs' => p :: written evs'
  | _ :: evs' => written evs'
  end.

(** The jobs the loop came to, in order. *)
Fixpoint attempted (evs : list event) : list Job :=
  match evs with
  | [] => []
  | JobHeader _ job :: evs' => job :: attempted evs'
  | _ :: evs' => attempted evs'
  end.

(** The failures the loop logged, in order. *)
Fixpoint logged (evs : list event) : list (nat * failure_class) :=
  match evs with
  | [] => []
  | JobError i k _ :: evs' => (i, k) :: logged evs'
  | _ :: evs' => logged evs'
  end.

(** A computation with some events put in front of its own. *)
Definition after {A} (evs : list event) (r : outcome A * list event * World)
    : outcome A * list event * World :=
  let '(o, evs', w) := r in (o, evs ++ evs', w).

(** What [smart_sleep] records. *)
Definition slept (seconds : Q) : list event :=
  if Qle_bool seconds 0 then [] else [Sleep seconds].

(** A status the polling loop leaves on. *)
Definition terminal (status : string) : bool :=
  String.eqb status "completed" || String.eqb status "failed".

(** The creations, deletions and writes among the events [evs]. *)
Record footprint : Type := Footprint {
  fp_vs_created : list string;
  fp_vs_deleted : list string;
  fp_files_uploaded : list string;
  fp_files_deleted : list string;
  fp_written : list string;
  fp_attempted : list Job;
  fp_logged : list (nat * failure_class)
}.

(** The footprint of events that are not of the job loop. *)
Definition mkFootprint (created deleted uploaded files_del wrote : list string)
    : footprint :=
  Footprint created deleted uploaded files_del wrote [] [].

Definition footprint_of (evs : list event) : footprint :=
  Footprint (vs_created evs) (vs_deleted evs) (files_uploaded evs)
            (files_deleted evs) (written evs) (attempted evs) (logged evs).

Definition fp_app (a b : footprint) : footprint :=
  Footprint (fp_vs_created a ++ fp_vs_created b)
            (fp_vs_deleted a ++ fp_vs_deleted b)
            (fp_files_uploaded a ++ fp_files_uploaded b)
            (fp_files_deleted a ++ fp_files_deleted b)
            (fp_written a ++ fp_written b)
            (fp_attempted a ++ fp_attempted b)
            (fp_logged a ++ fp_logged b).

Definition fp_empty : footprint := mkFootprint [] [] [] [] [].

(** The last [except] clause of the polling loop: delete both, swallowing
    what the deletions raise, then raise [e] again. *)
Definition cleanup_and_raise {A} (vs fid : string) (e : exn) : M A :=
  ignore_errors (remote (vector_stores_delete vs)) >>
  ignore_errors (remote (files_delete fid)) >>
  raise e.

(** The failure the loop raises on the status [failed]. *)
Definition processing_failed (o : RemoteObject) : exn :=
  mkExn RuntimeError
    (String.append "File processing failed: "
       match obj_last_error o with
       | Some m => m
       | None => "Unknown error"
       end).

(** The status checks a computation made. *)
Fixpoint status_checks (evs : list event) : nat :=
  match evs with
  | [] => 0
  | Remote (vector_stores_files_retrieve _ _) _ :: evs' => S (status_checks evs')
  | _ :: evs' => status_checks evs'
  end.

(** What the loop records while the statuses [pre] come back. *)
Definition pending_checks (env : Env) (vs fid : string) (pre : list RemoteObject)
    : list event :=
  flat_map
    (fun o => Remote (vector_stores_files_retrieve vs fid) (Some (Returned o))
              :: slept (POLL_INTERVAL_S env))
    pre.

(** The result of a computation, with [a] for what it returns. *)
Definition returning {A} (a : A) (r : outcome unit * list event * World)
    : outcome A * list event * World :=
  match r with
  | (Ret _, evs, w) => (Ret a, evs, w)
  | (Exc e, evs, w) => (Exc e, evs, w)
  | (Hang, evs, w) => (Hang, evs, w)
  end.

(** What [setup_file_search_vector_store] records when the upload, the
    creation and the addition succeed, the clock having been read [c]
    times. *)
Definition setup_events (env : Env) (path : string) (c : nat)
    (file_obj vector_store vs_file : RemoteObject) : list event :=
  [ Remote (files_create path "assistants") (Some (Returned file_obj));
    Remote (vector_stores_create
              (String.append "temp_vs_"
                 (String.append (path_stem env path)
                    (String.append "_" (timestamp_at env c)))))
           (Some (Returned vector_store));
    Remote (vector_stores_files_create (obj_id vector_store) (obj_id file_obj))
           (Some (Returned vs_file)) ].

(** The footprints a [file] job can leave. *)
Definition fp_upload_undone (f : string) : footprint := mkFootprint [] [] [f] [f] [].
Definition fp_setup_undone (v f : string) : footprint := mkFootprint [v] [v] [f] [f] [].
Definition fp_queried (v f : string) : footprint :=
  mkFootprint [v] (if truthy v then [v] else []) [f] [] [].

Definition with_written (p : string) (fp : footprint) : footprint :=
  Footprint (fp_vs_created fp) (fp_vs_deleted fp) (fp_files_uploaded fp)
            (fp_files_deleted fp) (fp_written fp ++ [p])
            (fp_attempted fp) (fp_logged fp).

(** An exception on which the [except APIError] clause raises. *)
Definition stops_the_loop (e : exn) : bool :=
  match classify e with
  | OpenAIAPIError => negb (has_status_code e)
  | _ => false
  end.

(** What [process_job] does on each job the loop dispatches, in turn, the
    script of replies going from one job to the next.  The last is a job
    that never ends, or one whose exception the loop fails to report, or the
    job before an entry whose header raises. *)
Fixpoint dispatch_outcomes (env : Env) (outdir : string) (sleep_s : Q)
    (jobs : list entry) (w : World) : list (outcome unit) :=
  match jobs with
  | [] => []
  | BadEntry _ :: _ => []
  | Mapping job :: rest =>
      let '(o, _, w') := process_job env job outdir sleep_s w in
      o :: match o with
           | Hang => []
           | Exc e =>
               if stops_the_loop e then []
               else dispatch_outcomes env outdir sleep_s rest w'
           | Ret _ => dispatch_outcomes env outdir sleep_s rest w'
           end
  end.

Definition has_raised {A} (o : outcome A) : bool :=
  match o with Exc _ => true | _ => false end.

Definition has_hung {A} (o : outcome A) : bool :=
  match o with Hang => true | _ => false end.

Definition raised_count (os : list (outcome unit)) : nat :=
  length (List.filter has_raised os).



(** ** Scenarios: an environment, jobs and scripts of replies *)

(** An environment for the scenarios: one file exists, nothing fails
    locally, and [joinpath] is what [pathlib]'s [/] gives on the plain
    relative names the scenarios use. *)
Definition demo_env : Env :=
  mkEnv (fun n => String.append "20250101_00000" (String (ascii_of_nat (48 + n)) ""))
        (fun p => String.eqb p "docs/my_document.pdf")
        (fun p => p)
        (fun _ => "my_document")
        (fun d o => String.append d (String.append "/" o))
        (fun _ => None) (fun _ => None) (fun _ => None)
        5.

Definition remote_id (i : string) : RemoteObject := mkObj i "" None "" [].

Definition membership (status : string) (last_error : option string) : RemoteObject :=
  mkObj "file-1" status last_error "" [].

Definition answer (text : string) : RemoteObject :=
  mkObj "resp-1" "completed" None text ["message"].

Definition web_job (query out : string) : Job :=
  <["type" := "web"]> (<["query" := query]> (<["out" := out]> ∅)).

Definition demo_file_job : Job :=
  <["type" := "file"]>
    (<["file_path" := "docs/my_document.pdf"]>
       (<["query" := "Summarize the document."]>
          (<["out" := "my_document_summary.json"]> ∅))).

(** Upload, creation and addition succeed; the file is processed at the
    third status check; the query and the deletion of the store succeed. *)
Definition world_success : World :=
  mkWorld [ Returned (remote_id "file-1"); Returned (remote_id "vs-1");
            Returned (membership "in_progress" None);
            Returned (membership "in_progress" None);
            Returned (membership "in_progress" None);
            Returned (membership "completed" None);
            Returned (answer "A summary.");
            Returned (remote_id "vs-1") ] 0.

(** The same, but processing fails with the message "bad format". *)
Definition world_failed : World :=
  mkWorld [ Returned (remote_id "file-1"); Returned (remote_id "vs-1");
            Returned (membership "in_progress" None);
            Returned (membership "in_progress" None);
            Returned (membership "failed" (Some "bad format"));
            Raised (mkExn APIError "delete failed");
            Returned (remote_id "file-1") ] 0.

Definition rate_limited : exn := mkExn RateLimitError "Error code: 429".
Definition connection_reset : exn := mkExn (OtherException "ConnectionResetError") "reset".

Definition missing_file_job : Job :=
  <["type" := "FILE"]>
    (<["file_path" := "docs/nowhere.pdf"]>
       (<["query" := "Summarize the document."]> (<["out" := "nowhere.json"]> ∅))).

(** Three [web] jobs, the second without [query]; the remote API answers the
    two queries that are made. *)
Definition three_jobs : list entry :=
  [ Mapping (web_job "latest emperor penguin population study" "penguin_pop.json");
    Mapping (delete "query" (web_job "" "second.json"));
    Mapping (web_job "krill biomass 2024" "krill.json") ].

Definition world_two_answers : World :=
  mkWorld [Returned (answer "About 600000."); Returned (answer "About 400 Mt.")] 0.

Definition demo_args : Args := mkArgs (JobList three_jobs) "stash" (1 # 4) 5.


(** Two [web] jobs, and a script in which the connection fails on the first
    query. *)
Definition two_jobs : list entry :=
  [ Mapping (web_job "latest emperor penguin population study" "penguin_pop.json");
    Mapping (web_job "krill biomass 2024" "krill.json") ].

Definition connection_failed : exn := mkExn APIConnectionError "Connection error.".

Definition world_connection_fails : World :=
  mkWorld [Raised connection_failed; Returned (answer "About 400 Mt.")] 0.

(** A job list whose second entry has [type:] with no value. *)
Definition null_type_jobs : list entry :=
  [ Mapping (web_job "latest emperor penguin population study" "penguin_pop.json");
    BadEntry "'NoneType' object has no attribute 'upper'";
    Mapping (web_job "krill biomass 2024" "krill.json") ].

(** A reply to a status check after which the polling loop checks again:
    an intermediate status, or an [APIError]. *)
Definition retried (r : reply) : bool :=
  match r with
  | Returned o => negb (terminal (obj_status o))
  | Raised e => isinstance_APIError e
  end.

(** What the polling loop records while the replies [pre] come back: each
    status check, and the sleep that follows it. *)
Definition retry_events (env : Env) (vs fid : string) (pre : list reply)
    : list event :=
  flat_map
    (fun r => Remote (vector_stores_files_retrieve vs fid) (Some r)
              :: slept (match r with
                        | Returned _ => POLL_INTERVAL_S env
                        | Raised _ => POLL_INTERVAL_S env * 2
                        end))
    pre.

(** The failures among the outcomes of the jobs numbered from [i] on: the
    number of the job and the class of what it raised. *)
Fixpoint failures_of (i : nat) (os : list (outcome unit))
    : list (nat * failure_class) :=
  match os with
  | [] => []
  | Exc e :: os' => (i, classify e) :: failures_of (S i) os'
  | _ :: os' => failures_of (S i) os'
  end.

(** A [file] job in upper case, and a [web] job with a model of its own. *)
Definition upper_file_job : Job := <["type" := "FILE"]> demo_file_job.

Definition web_job_with_model : Job :=
  <["model" := "gpt-4.1-mini"]> (web_job "krill biomass 2024" "krill.json").

(** * Properties *)

Lemma calls_app evs1 evs2 : calls (evs1 ++ evs2) = calls evs1 ++ calls evs2.
Proof.
  induction evs1 as [|ev evs1 IH]; [reflexivity|].
  destruct ev; simpl; rewrite ?IH; reflexivity.
Qed.

Lemma vs_deleted_app evs1 evs2 :
  vs_deleted (evs1 ++ evs2) = vs_deleted evs1 ++ vs_deleted evs2.
Proof.
  induction evs1 as [|ev evs1 IH]; [reflexivity|].
  destruct ev as [c a| | | | | |]; simpl; rewrite ?IH; try reflexivity.
  destruct c; simpl; rewrite ?IH; reflexivity.
Qed.

Lemma files_deleted_app evs1 evs2 :
  files_deleted (evs1 ++ evs2) = files_deleted evs1 ++ files_deleted evs2.
Proof.
  induction evs1 as [|ev evs1 IH]; [reflexivity|].
  destruct ev as [c a| | | | | |]; simpl; rewrite ?IH; try reflexivity.
  destruct c; simpl; rewrite ?IH; reflexivity.
Qed.

Lemma vs_created_app evs1 evs2 :
  vs_created (evs1 ++ evs2) = vs_created evs1 ++ vs_created evs2.
Proof.
  induction evs1 as [|ev evs1 IH]; [reflexivity|].
  destruct ev as [c a| | | | | |]; simpl; rewrite ?IH; try reflexivity.
  destruct c; simpl; rewrite ?IH; try reflexivity.
  destruct a as [[o|e]|]; simpl; rewrite ?IH; reflexivity.
Qed.

Lemma written_app evs1 evs2 : written (evs1 ++ evs2) = written evs1 ++ written evs2.
Proof.
  induction evs1 as [|ev evs1 IH]; [reflexivity|].
  destruct ev; simpl; rewrite ?IH; reflexivity.
Qed.

Lemma attempted_app evs1 evs2 :
  attempted (evs1 ++ evs2) = attempted evs1 ++ attempted evs2.
Proof.
  induction evs1 as [|ev evs1 IH]; [reflexivity|].
  destruct ev; simpl; rewrite ?IH; reflexivity.
Qed.

Lemma logged_app evs1 evs2 : logged (evs1 ++ evs2) = logged evs1 ++ logged evs2.
Proof.
  induction evs1 as [|ev evs1 IH]; [reflexivity|].
  destruct ev; simpl; rewrite ?IH; reflexivity.
Qed.

Lemma slept_calls q : calls (slept q) = [].
Proof. unfold slept. destruct (Qle_bool q 0); reflexivity. Qed.

Lemma slept_vs_deleted q : vs_deleted (slept q) = [].
Proof. unfold slept. destruct (Qle_bool q 0); reflexivity. Qed.

Lemma slept_files_deleted q : files_deleted (slept q) = [].
Proof. unfold slept. destruct (Qle_bool q 0); reflexivity. Qed.

Lemma slept_vs_created q : vs_created (slept q) = [].
Proof. unfold slept. destruct (Qle_bool q 0); reflexivity. Qed.

Lemma slept_written q : written (slept q) = [].
Proof. unfold slept. destruct (Qle_bool q 0); reflexivity. Qed.

Lemma Contains_append (p s : string) : Contains (String.append p s) s.
Proof.
  exists p, EmptyString. f_equal.
  induction s as [|c s IH]; [reflexivity|].
  change (String c s = String c (String.append s EmptyString)). now f_equal.
Qed.

Lemma files_uploaded_app evs1 evs2 :
  files_uploaded (evs1 ++ evs2) = files_uploaded evs1 ++ files_uploaded evs2.
Proof.
  induction evs1 as [|ev evs1 IH]; [reflexivity|].
  destruct ev as [c a| | | | | |]; simpl; rewrite ?IH; try reflexivity.
  destruct c; simpl; rewrite ?IH; try reflexivity.
  destruct a as [[o|e]|]; simpl; rewrite ?IH; reflexivity.
Qed.

Lemma footprint_app evs1 evs2 :
  footprint_of (evs1 ++ evs2) = fp_app (footprint_of evs1) (footprint_of evs2).
Proof.
  unfold footprint_of, fp_app. cbn [fp_vs_created fp_vs_deleted fp_files_uploaded
    fp_files_deleted fp_written fp_attempted fp_logged].
  now rewrite vs_created_app, vs_deleted_app, files_uploaded_app,
    files_deleted_app, written_app, attempted_app, logged_app.
Qed.

Lemma footprint_slept q : footprint_of (slept q) = fp_empty.
Proof. unfold slept. destruct (Qle_bool q 0); reflexivity. Qed.

Lemma fp_app_empty_l a : fp_app fp_empty a = a.
Proof. destruct a. reflexivity. Qed.

Lemma footprint_cons_slept ev q evs :
  footprint_of (ev :: slept q ++ evs) = footprint_of (ev :: evs).
Proof.
  change (ev :: slept q ++ evs) with ([ev] ++ slept q ++ evs).
  change (ev :: evs) with ([ev] ++ evs).
  now rewrite !footprint_app, footprint_slept, fp_app_empty_l.
Qed.

(** ** The polling loop, one reply at a time *)

Section Polling.

Variable env : Env.
Variables vs fid : string.

Let retrieve : call := vector_stores_files_retrieve vs fid.

Lemma smart_sleep_run q w : smart_sleep q w = (Ret tt, slept q, w).
Proof. unfold smart_sleep, slept. destruct (Qle_bool q 0); reflexivity. Qed.

Lemma while_true_step fuel (body : M bool) w :
  while_true (S fuel) body w
  = match body w with
    | (Ret true, evs, w') => (Ret tt, evs, w')
    | (Ret false, evs, w') => after evs (while_true fuel body w')
    | (Exc e, evs, w') => (Exc e, evs, w')
    | (Hang, evs, w') => (Hang, evs, w')
    end.
Proof.
  cbn [while_true]. unfold bind.
  destruct (body w) as [[[[|]|e|] evs] w']; try reflexivity.
  unfold ret. now rewrite app_nil_r.
Qed.

Lemma poll_body_completed o rest c :
  obj_status o = "completed" ->
  poll_body env vs fid (mkWorld (Returned o :: rest) c)
  = (Ret true, [Remote retrieve (Some (Returned o))], mkWorld rest c).
Proof.
  intros H. cbv [poll_body try_except bind remote replies clock].
  rewrite H. reflexivity.
Qed.

Lemma poll_body_pending o rest c :
  terminal (obj_status o) = false ->
  poll_body env vs fid (mkWorld (Returned o :: rest) c)
  = (Ret false,
     Remote retrieve (Some (Returned o)) :: slept (POLL_INTERVAL_S env),
     mkWorld rest c).
Proof.
  intros H. unfold terminal in H. apply orb_false_elim in H as [H1 H2].
  cbv [poll_body try_except bind remote replies clock].
  rewrite H1, H2, smart_sleep_run. unfold ret. now rewrite app_nil_r.
Qed.

Lemma poll_body_failed o rest c :
  obj_status o = "failed" ->
  poll_body env vs fid (mkWorld (Returned o :: rest) c)
  = after [Remote retrieve (Some (Returned o))]
          (cleanup_and_raise vs fid (processing_failed o) (mkWorld rest c)).
Proof.
  intros H. unfold poll_body, try_except. unfold bind at 1. unfold remote at 1.
  cbn [replies clock]. rewrite H. cbn [String.eqb Ascii.eqb Bool.eqb].
  unfold raise at 1. cbn [app].
  change (isinstance_APIError _) with false. reflexivity.
Qed.

Lemma poll_body_transient e rest c :
  isinstance_APIError e = true ->
  poll_body env vs fid (mkWorld (Raised e :: rest) c)
  = (Ret false,
     Remote retrieve (Some (Raised e)) :: slept (POLL_INTERVAL_S env * 2),
     mkWorld rest c).
Proof.
  intros H. cbv [poll_body try_except bind remote replies clock].
  rewrite H, smart_sleep_run. unfold ret. now rewrite app_nil_r.
Qed.

Lemma poll_body_fatal e rest c :
  isinstance_APIError e = false ->
  poll_body env vs fid (mkWorld (Raised e :: rest) c)
  = after [Remote retrieve (Some (Raised e))]
          (cleanup_and_raise vs fid e (mkWorld rest c)).
Proof.
  intros H. unfold poll_body, try_except. unfold bind at 1. unfold remote at 1.
  cbn [replies clock]. rewrite H. reflexivity.
Qed.

(** [cleanup_and_raise] calls both deletions and swallows what they raise. *)
Lemma cleanup_and_raise_run {A} e r1 r2 rest c :
  @cleanup_and_raise A vs fid e (mkWorld (r1 :: r2 :: rest) c)
  = (Exc e,
     [Remote (vector_stores_delete vs) (Some r1); Remote (files_delete fid) (Some r2)],
     mkWorld rest c).
Proof. destruct r1, r2; reflexivity. Qed.

(** It never returns: it raises [e], or a deletion is left unanswered. *)
Lemma cleanup_and_raise_cases {A} e w :
  (exists evs w', @cleanup_and_raise A vs fid e w = (Exc e, evs, w')
      /\ footprint_of evs = mkFootprint [] [vs] [] [fid] [])
  \/ (exists evs w', @cleanup_and_raise A vs fid e w = (Hang, evs, w')).
Proof.
  destruct w as [[|r1 [|r2 rest]] c].
  - right. eexists _, _. reflexivity.
  - right. destruct r1; eexists _, _; reflexivity.
  - left. rewrite cleanup_and_raise_run. eexists _, _. split; reflexivity.
Qed.

Lemma poll_loop_unanswered c :
  poll_loop env vs fid (mkWorld [] c) = (Hang, [Remote retrieve None], mkWorld [] c).
Proof. reflexivity. Qed.

Lemma poll_loop_completed o rest c :
  obj_status o = "completed" ->
  poll_loop env vs fid (mkWorld (Returned o :: rest) c)
  = (Ret tt, [Remote retrieve (Some (Returned o))], mkWorld rest c).
Proof.
  intros H. unfold poll_loop. cbn [replies length].
  now rewrite while_true_step, poll_body_completed.
Qed.

Lemma poll_loop_pending o rest c :
  terminal (obj_status o) = false ->
  poll_loop env vs fid (mkWorld (Returned o :: rest) c)
  = after (Remote retrieve (Some (Returned o)) :: slept (POLL_INTERVAL_S env))
          (poll_loop env vs fid (mkWorld rest c)).
Proof.
  intros H. unfold poll_loop at 1. cbn [replies length].
  now rewrite while_true_step, poll_body_pending.
Qed.

Lemma poll_loop_failed o rest c :
  obj_status o = "failed" ->
  poll_loop env vs fid (mkWorld (Returned o :: rest) c)
  = after [Remote retrieve (Some (Returned o))]
          (cleanup_and_raise vs fid (processing_failed o) (mkWorld rest c)).
Proof.
  intros H. unfold poll_loop at 1. cbn [replies length].
  rewrite while_true_step, poll_body_failed by assumption.
  destruct rest as [|[?|?] [|[?|?] rest]]; reflexivity.
Qed.

Lemma poll_loop_transient e rest c :
  isinstance_APIError e = true ->
  poll_loop env vs fid (mkWorld (Raised e :: rest) c)
  = after (Remote retrieve (Some (Raised e)) :: slept (POLL_INTERVAL_S env * 2))
          (poll_loop env vs fid (mkWorld rest c)).
Proof.
  intros H. unfold poll_loop at 1. cbn [replies length].
  now rewrite while_true_step, poll_body_transient.
Qed.

Lemma poll_loop_fatal e rest c :
  isinstance_APIError e = false ->
  poll_loop env vs fid (mkWorld (Raised e :: rest) c)
  = after [Remote retrieve (Some (Raised e))]
          (cleanup_and_raise vs fid e (mkWorld rest c)).
Proof.
  intros H. unfold poll_loop at 1. cbn [replies length].
  rewrite while_true_step, poll_body_fatal by assumption.
  destruct rest as [|[?|?] [|[?|?] rest]]; reflexivity.
Qed.

End Polling.

Lemma status_checks_app evs1 evs2 :
  status_checks (evs1 ++ evs2) = (status_checks evs1 + status_checks evs2)%nat.
Proof.
  induction evs1 as [|ev evs1 IH]; [reflexivity|].
  destruct ev as [c a| | | | | |]; simpl; rewrite ?IH; try reflexivity.
  destruct c; simpl; rewrite ?IH; reflexivity.
Qed.

Lemma slept_status_checks q : status_checks (slept q) = 0%nat.
Proof. unfold slept. destruct (Qle_bool q 0); reflexivity. Qed.

Lemma pending_checks_count env vs fid pre :
  status_checks (pending_checks env vs fid pre) = length pre.
Proof.
  induction pre as [|o pre IH]; [reflexivity|].
  unfold pending_checks in *. cbn [flat_map app status_checks length].
  now rewrite status_checks_app, slept_status_checks, IH.
Qed.

Lemma pending_checks_quiet env vs fid pre :
  vs_deleted (pending_checks env vs fid pre) = []
  /\ files_deleted (pending_checks env vs fid pre) = [].
Proof.
  induction pre as [|o pre [IH1 IH2]]; [now split|].
  unfold pending_checks in *. cbn [flat_map app vs_deleted files_deleted].
  now rewrite vs_deleted_app, files_deleted_app, slept_vs_deleted,
    slept_files_deleted, IH1, IH2.
Qed.

Lemma after_after {A} evs1 evs2 (r : outcome A * list event * World) :
  after evs1 (after evs2 r) = after (evs1 ++ evs2) r.
Proof. destruct r as [[o evs] w]. unfold after. now rewrite app_assoc. Qed.

(** The loop goes on as long as intermediate statuses come back. *)
Lemma poll_loop_pending_prefix env vs fid pre script c :
  Forall (fun o => terminal (obj_status o) = false) pre ->
  poll_loop env vs fid (mkWorld (map Returned pre ++ script) c)
  = after (pending_checks env vs fid pre) (poll_loop env vs fid (mkWorld script c)).
Proof.
  induction 1 as [|o pre Ho _ IH].
  - destruct (poll_loop _ _ _ _) as [[o evs] w]. reflexivity.
  - cbn [map app]. rewrite poll_loop_pending by assumption.
    rewrite IH, after_after. reflexivity.
Qed.

(** [setup_file_search_vector_store] once the upload, the creation and the
    addition have succeeded: it polls, and returns the identifier of the
    store when the loop is left by [break]. *)
Lemma setup_reaches_polling env path file_obj vector_store vs_file script c :
  open_error env path = None ->
  setup_file_search_vector_store env path
    (mkWorld (Returned file_obj :: Returned vector_store :: Returned vs_file :: script) c)
  = after (setup_events env path c file_obj vector_store vs_file)
      (returning (obj_id vector_store)
         (poll_loop env (obj_id vector_store) (obj_id file_obj) (mkWorld script (S c)))).
Proof.
  intros Hopen. unfold setup_file_search_vector_store.
  unfold bind at 1. unfold try_except at 1. rewrite Hopen.
  unfold remote at 1. cbn [replies clock].
  unfold bind at 1. unfold _timestamp at 1. cbn [replies clock].
  unfold bind at 1. unfold try_except at 1. unfold remote at 1. cbn [replies clock].
  unfold bind at 1. unfold try_except at 1. unfold remote at 1. cbn [replies clock].
  unfold bind at 1.
  destruct (poll_loop env (obj_id vector_store) (obj_id file_obj) (mkWorld script (S c)))
    as [[[[]|e|] evs] w]; unfold ret, after, returning; cbn [app];
    rewrite ?app_nil_r; reflexivity.
Qed.

(** C3.  Polling in [setup_file_search_vector_store] is left only on a
    terminal status.  After any run [pre] of intermediate statuses: when the
    next status is [completed] the function returns the identifier of the
    vector store, having made one status check per status; when it is
    [failed] with the remote message [m] it raises a [RuntimeError] whose
    message contains [m]; and as long as only the statuses of [pre] have come
    back it has neither returned nor raised. *)
Theorem C3_polling_exits_only_on_terminal_status :
  forall env path file_obj vector_store vs_file (pre : list RemoteObject) c,
    open_error env path = None ->
    Forall (fun o => terminal (obj_status o) = false) pre ->
    let run script :=
      setup_file_search_vector_store env path
        (mkWorld (Returned file_obj :: Returned vector_store :: Returned vs_file
                  :: map Returned pre ++ script) c) in
    (forall o rest, obj_status o = "completed" ->
       exists evs,
         run (Returned o :: rest) = (Ret (obj_id vector_store), evs, mkWorld rest (S c))
         /\ status_checks evs = S (length pre))
    /\ (forall o r1 r2 rest,
          obj_status o = "failed" ->
          exists e evs,
            run (Returned o :: r1 :: r2 :: rest) = (Exc e, evs, mkWorld rest (S c))
            /\ cls e = RuntimeError
            /\ (forall m, obj_last_error o = Some m -> Contains (message e) m)
            /\ status_checks evs = S (length pre))
    /\ (exists evs w', run [] = (Hang, evs, w') /\ status_checks evs = S (length pre)).
Proof.
  intros env path file_obj vector_store vs_file pre c Hopen Hpre run.
  subst run. cbv beta. repeat split.
  - intros o rest Ho.
    rewrite setup_reaches_polling, poll_loop_pending_prefix by assumption.
    rewrite poll_loop_completed by assumption.
    eexists. split; [reflexivity|].
    rewrite !status_checks_app, pending_checks_count. simpl. lia.
  - intros o r1 r2 rest Ho.
    rewrite setup_reaches_polling, poll_loop_pending_prefix by assumption.
    rewrite poll_loop_failed, cleanup_and_raise_run by assumption.
    eexists _, _. split; [reflexivity|]. split; [reflexivity|]. split.
    + intros m Hm. unfold processing_failed. rewrite Hm. apply Contains_append.
    + rewrite !status_checks_app, pending_checks_count. simpl. lia.
  - rewrite setup_reaches_polling, poll_loop_pending_prefix by assumption.
    rewrite poll_loop_unanswered.
    eexists _, _. split; [reflexivity|].
    rewrite !status_checks_app, pending_checks_count. simpl. lia.
Qed.

(** C7.  A status check that raises an [APIError] is followed by a sleep of
    twice the poll interval and by the next status check, with no deletion in
    between; a status check that raises anything else is followed by the
    deletion of the vector store, then of the uploaded file, whatever the two
    deletions answer, and the exception of the status check is raised
    again. *)
Theorem C7_transient_retry_and_fatal_cleanup :
  forall env vs fid e rest c,
    (isinstance_APIError e = true ->
       poll_loop env vs fid (mkWorld (Raised e :: rest) c)
       = after (Remote (vector_stores_files_retrieve vs fid) (Some (Raised e))
                :: slept (POLL_INTERVAL_S env * 2))
               (poll_loop env vs fid (mkWorld rest c))
       /\ vs_deleted (slept (POLL_INTERVAL_S env * 2)) = []
       /\ files_deleted (slept (POLL_INTERVAL_S env * 2)) = []
       /\ (0 < POLL_INTERVAL_S env ->
           slept (POLL_INTERVAL_S env * 2) = [Sleep (POLL_INTERVAL_S env * 2)]
           /\ slept (POLL_INTERVAL_S env) = [Sleep (POLL_INTERVAL_S env)]
           /\ POLL_INTERVAL_S env < POLL_INTERVAL_S env * 2)%Q)
    /\ (isinstance_APIError e = false ->
        forall r1 r2 rest', rest = r1 :: r2 :: rest' ->
          poll_loop env vs fid (mkWorld (Raised e :: rest) c)
          = (Exc e,
             [ Remote (vector_stores_files_retrieve vs fid) (Some (Raised e));
               Remote (vector_stores_delete vs) (Some r1);
               Remote (files_delete fid) (Some r2) ],
             mkWorld rest' c)).
Proof.
  intros env vs fid e rest c. split.
  - intros He. split; [now apply poll_loop_transient|].
    split; [apply slept_vs_deleted|]. split; [apply slept_files_deleted|].
    intros Hpos.
    assert (H2 : (POLL_INTERVAL_S env < POLL_INTERVAL_S env * 2)%Q).
    { destruct (POLL_INTERVAL_S env) as [n d]. unfold Qlt in *. simpl in *. nia. }
    assert (Hpos2 : (0 < POLL_INTERVAL_S env * 2)%Q) by (eapply Qlt_trans; eassumption).
    unfold slept. repeat split; trivial.
    + destruct (Qle_bool (POLL_INTERVAL_S env * 2) 0) eqn:E; [|reflexivity].
      apply Qle_bool_iff in E. exfalso. exact (Qlt_not_le _ _ Hpos2 E).
    + destruct (Qle_bool (POLL_INTERVAL_S env) 0) eqn:E; [|reflexivity].
      apply Qle_bool_iff in E. exfalso. exact (Qlt_not_le _ _ Hpos E).
  - intros He r1 r2 rest' ->.
    now rewrite poll_loop_fatal, cleanup_and_raise_run.
Qed.

(** C10.  When a status check returns [failed], after any run of intermediate
    statuses, [setup_file_search_vector_store] calls the deletion of the
    vector store, then the deletion of the uploaded file, whatever the two
    deletions answer, and only then raises its [RuntimeError], whose message
    contains the remote message; the calls are those it makes when the status
    check raises an exception that is not an [APIError]. *)
Theorem C10_failed_status_cleans_up_before_raising :
  forall env path file_obj vector_store vs_file (pre : list RemoteObject) o r1 r2 rest c,
    open_error env path = None ->
    Forall (fun o => terminal (obj_status o) = false) pre ->
    obj_status o = "failed" ->
    let vs := obj_id vector_store in
    let fid := obj_id file_obj in
    let run script :=
      setup_file_search_vector_store env path
        (mkWorld (Returned file_obj :: Returned vector_store :: Returned vs_file
                  :: map Returned pre ++ script) c) in
    let before := setup_events env path c file_obj vector_store vs_file
                  ++ pending_checks env vs fid pre in
    let cleanup := [ Remote (vector_stores_delete vs) (Some r1);
                     Remote (files_delete fid) (Some r2) ] in
    run (Returned o :: r1 :: r2 :: rest)
    = (Exc (processing_failed o),
       before ++ Remote (vector_stores_files_retrieve vs fid) (Some (Returned o)) :: cleanup,
       mkWorld rest (S c))
    /\ cls (processing_failed o) = RuntimeError
    /\ (forall m, obj_last_error o = Some m -> Contains (message (processing_failed o)) m)
    /\ (forall e, isinstance_APIError e = false ->
          run (Raised e :: r1 :: r2 :: rest)
          = (Exc e,
             before ++ Remote (vector_stores_files_retrieve vs fid) (Some (Raised e)) :: cleanup,
             mkWorld rest (S c))).
Proof.
  intros env path file_obj vector_store vs_file pre o r1 r2 rest c Hopen Hpre Ho.
  cbv zeta. repeat split.
  - rewrite setup_reaches_polling, poll_loop_pending_prefix by assumption.
    rewrite poll_loop_failed, cleanup_and_raise_run by assumption.
    cbn [after returning]. now rewrite <- app_assoc.
  - intros m Hm. unfold processing_failed. rewrite Hm. apply Contains_append.
  - intros e He.
    rewrite setup_reaches_polling, poll_loop_pending_prefix by assumption.
    rewrite poll_loop_fatal, cleanup_and_raise_run by assumption.
    cbn [after returning]. now rewrite <- app_assoc.
Qed.

(** ** What one job creates and deletes *)

(** The polling loop creates and writes nothing; it deletes nothing when it
    is left by [break], and the store and the file, once each, when it is left
    by an exception. *)
Lemma poll_loop_footprint env vs fid w :
  match poll_loop env vs fid w with
  | (Ret _, evs, _) => footprint_of evs = fp_empty
  | (Exc _, evs, _) => footprint_of evs = mkFootprint [] [vs] [] [fid] []
  | (Hang, _, _) => True
  end.
Proof.
  destruct w as [rs c]. induction rs as [|r rs IH].
  - now rewrite poll_loop_unanswered.
  - destruct r as [o|e].
    + destruct (String.eqb (obj_status o) "completed") eqn:E1.
      { apply String.eqb_eq in E1. now rewrite poll_loop_completed. }
      destruct (String.eqb (obj_status o) "failed") eqn:E2.
      { apply String.eqb_eq in E2. rewrite poll_loop_failed by assumption.
        destruct (cleanup_and_raise_cases vs fid (A:=unit) (processing_failed o)
                    (mkWorld rs c)) as [(evs & w' & E & H1)|(evs & w' & E)];
          rewrite E; cbn [after]; [|exact I].
        change (?a :: evs) with ([a] ++ evs). now rewrite footprint_app, H1. }
      rewrite poll_loop_pending by (unfold terminal; now rewrite E1, E2).
      destruct (poll_loop env vs fid (mkWorld rs c)) as [[[[]|e|] evs] w'];
        cbn [after]; trivial; cbn [app]; now rewrite footprint_cons_slept.
    + destruct (isinstance_APIError e) eqn:E.
      * rewrite poll_loop_transient by assumption.
        destruct (poll_loop env vs fid (mkWorld rs c)) as [[[[]|e'|] evs] w'];
          cbn [after]; trivial; cbn [app]; now rewrite footprint_cons_slept.
      * rewrite poll_loop_fatal by assumption.
        destruct (cleanup_and_raise_cases vs fid (A:=unit) e (mkWorld rs c))
          as [(evs & w' & E' & H1)|(evs & w' & E')];
          rewrite E'; cbn [after]; [|exact I].
        change (?a :: evs) with ([a] ++ evs). now rewrite footprint_app, H1.
Qed.

(** Case analysis on whatever the computation in the goal inspects next. *)
Ltac next_case :=
  match goal with
  | |- context [match open_error ?e ?p with _ => _ end] => destruct (open_error e p) eqn:?
  | |- context [match replies ?w with _ => _ end] => destruct (replies w) as [|[?|?] ?] eqn:?
  | |- context [match ?l with [] => _ | _ :: _ => _ end] => is_var l; destruct l as [|[?|?] ?]
  end.

Lemma setup_footprint env path w :
  match setup_file_search_vector_store env path w with
  | (Ret v, evs, _) => exists f, footprint_of evs = mkFootprint [v] [] [f] [] []
  | (Exc _, evs, _) =>
      footprint_of evs = fp_empty
      \/ (exists f, footprint_of evs = mkFootprint [] [] [f] [f] [])
      \/ (exists v f, footprint_of evs = mkFootprint [v] [v] [f] [f] [])
  | (Hang, _, _) => True
  end.
Proof.
  unfold setup_file_search_vector_store.
  cbv [bind try_except ignore_errors remote raise ret _timestamp replies clock].
  destruct w as [rs c]. cbn [replies clock].
  repeat next_case; cbn [app]; eauto.
  all: try (right; left; eexists; reflexivity).
  all: try (right; right; eexists _, _; reflexivity).
  all: match goal with
       | |- context [poll_loop ?e ?v ?f ?w] =>
           pose proof (poll_loop_footprint e v f w) as Hp;
           destruct (poll_loop e v f w) as [[[[]|?|] evs] w']
       end; trivial.
  - eexists. change (?a :: ?b :: ?c :: evs ++ []) with ([a; b; c] ++ evs ++ []).
    rewrite app_nil_r, footprint_app, Hp. reflexivity.
  - right; right. eexists _, _.
    change (?a :: ?b :: ?c :: evs) with ([a; b; c] ++ evs).
    rewrite footprint_app, Hp. reflexivity.
Qed.

Lemma file_job_footprint env job model w :
  match file_job env job model w with
  | (Ret _, evs, _) => exists v f, footprint_of evs = fp_queried v f
  | (Exc _, evs, _) =>
      footprint_of evs = fp_empty
      \/ (exists f, footprint_of evs = fp_upload_undone f)
      \/ (exists v f, footprint_of evs = fp_setup_undone v f)
      \/ (exists v f, footprint_of evs = fp_queried v f)
  | (Hang, _, _) => True
  end.
Proof.
  unfold file_job. unfold bind at 1.
  destruct (job !! "file_path") as [file_path|]; [|left; reflexivity].
  destruct (path_exists env (expanduser env file_path)); cbn [negb];
    [|left; reflexivity].
  pose proof (setup_footprint env (expanduser env file_path) w) as Hs.
  destruct (setup_file_search_vector_store env (expanduser env file_path) w)
    as [[[v|e|] evs] [rs c]]; trivial.
  2:{ destruct Hs as [Hs|[Hs|Hs]]; auto. }
  destruct Hs as [f Hs].
  cbv [try_finally bind getitem run_file_search cleanup_vector_store ignore_errors
       remote raise ret _timestamp replies clock].
  destruct (job !! "query") as [query|]; destruct (truthy v) eqn:Hv;
    repeat next_case; cbn [app]; trivial;
    rewrite ?app_nil_r; try rewrite footprint_app; rewrite ?Hs;
    try (exists v, f; unfold fp_queried; rewrite Hv; reflexivity);
    try (right; right; right; exists v, f; unfold fp_queried; rewrite Hv; reflexivity).
Qed.

Lemma footprint_with_written evs p r q :
  footprint_of (evs ++ WriteText p r :: slept q) = with_written p (footprint_of evs).
Proof.
  rewrite footprint_app. change (WriteText p r :: slept q) with ([WriteText p r] ++ slept q).
  rewrite footprint_app, footprint_slept. unfold fp_app, with_written. cbn.
  now rewrite !app_nil_r.
Qed.

(** [process_job], statement by statement. *)
Lemma process_job_run env job outdir sleep_s w :
  process_job env job outdir sleep_s w
  = match job !! "type" with
    | None => (Exc (mkExn KeyError "'type'"), [], w)
    | Some ty =>
        let branch : M ResultRecord :=
          if String.eqb (lower ty) "web" then
            let* query := getitem job "query" in
            run_web_search env query (model_or (job !! "model") DEFAULT_WEB_MODEL)
          else if String.eqb (lower ty) "file" then
            file_job env job (model_or (job !! "model") DEFAULT_FILE_MODEL)
          else raise (mkExn ValueError (String.append "Unknown job type: " (lower ty))) in
        match branch w with
        | (Ret result, evs, w') =>
            match job !! "out" with
            | None => (Exc (mkExn KeyError "'out'"), evs, w')
            | Some out =>
                match write_error env (joinpath env outdir out) with
                | Some e => (Exc e, evs, w')
                | None =>
                    (Ret tt,
                     evs ++ WriteText (joinpath env outdir out) result :: slept sleep_s,
                     w')
                end
            end
        | (Exc e, evs, w') => (Exc e, evs, w')
        | (Hang, evs, w') => (Hang, evs, w')
        end
    end.
Proof.
  unfold process_job. unfold bind at 1. unfold getitem at 1.
  destruct (job !! "type") as [ty|]; [|reflexivity].
  cbv zeta. unfold ret at 1. cbn [app].
  unfold bind at 1.
  match goal with |- context [match ?b w with _ => _ end] =>
    destruct (b w) as [[[result|e|] evs] w'] end; try reflexivity.
  unfold bind at 1. unfold getitem at 1.
  destruct (job !! "out") as [out|]; [|unfold raise; now rewrite app_nil_r].
  unfold ret at 1. cbn [app]. unfold bind at 1. unfold write_text.
  destruct (write_error env (joinpath env outdir out));
    [unfold raise; now rewrite app_nil_r|].
  unfold emit. rewrite smart_sleep_run. reflexivity.
Qed.

Lemma process_job_footprint env job outdir sleep_s w :
  match process_job env job outdir sleep_s w with
  | (Ret _, evs, _) =>
      exists out, job !! "out" = Some out
        /\ (footprint_of evs = with_written (joinpath env outdir out) fp_empty
            \/ exists v f,
                 footprint_of evs = with_written (joinpath env outdir out) (fp_queried v f))
  | (Exc _, evs, _) =>
      footprint_of evs = fp_empty
      \/ (exists f, footprint_of evs = fp_upload_undone f)
      \/ (exists v f, footprint_of evs = fp_setup_undone v f)
      \/ (exists v f, footprint_of evs = fp_queried v f)
  | (Hang, _, _) => True
  end.
Proof.
  rewrite process_job_run.
  destruct (job !! "type") as [ty|]; [|left; reflexivity].
  cbv zeta.
  destruct (String.eqb (lower ty) "web").
  - (* web *)
    assert (Hweb : match (let* query := getitem job "query" in
                          run_web_search env query
                            (model_or (job !! "model") DEFAULT_WEB_MODEL)) w with
                   | (Hang, _, _) => True
                   | (_, evs, _) => footprint_of evs = fp_empty
                   end).
    { cbv [bind getitem run_web_search remote raise ret _timestamp replies clock].
      destruct (job !! "query"); trivial. destruct w as [rs c]. cbn [replies clock].
      repeat next_case; trivial. }
    destruct ((let* query := getitem job "query" in _) w) as [[[result|e|] evs] w'];
      trivial; [|now left].
    destruct (job !! "out") as [out|]; [|now left].
    destruct (write_error env (joinpath env outdir out)); [now left|].
    exists out. split; [reflexivity|]. left.
    now rewrite footprint_with_written, Hweb.
  - destruct (String.eqb (lower ty) "file"); [|left; reflexivity].
    pose proof (file_job_footprint env job (model_or (job !! "model") DEFAULT_FILE_MODEL) w) as Hf.
    destruct (file_job env job _ w) as [[[result|e|] evs] w']; trivial.
    destruct Hf as (v & f & Hf).
    destruct (job !! "out") as [out|]; [|right; right; right; eauto].
    destruct (write_error env (joinpath env outdir out));
      [right; right; right; eauto|].
    exists out. split; [reflexivity|]. right. exists v, f.
    now rewrite footprint_with_written, Hf.
Qed.

(** ** One [file] job *)


(** C1.  A [file] job that returns has uploaded one file and created one
    vector store; it has called the deletion of the store (when its
    identifier is not empty), and it has not called [client.files.delete] at
    all: the uploaded file is left behind. *)
Theorem C1_returning_file_job_keeps_uploaded_file :
  forall env job ty outdir sleep_s w evs w',
    job !! "type" = Some ty ->
    lower ty = "file" ->
    process_job env job outdir sleep_s w = (Ret tt, evs, w') ->
    exists v f,
      vs_created evs = [v]
      /\ vs_deleted evs = (if truthy v then [v] else [])
      /\ files_uploaded evs = [f]
      /\ files_deleted evs = [].
Proof.
  intros env job ty outdir sleep_s w evs w' Hty Hfile Hrun.
  rewrite process_job_run, Hty in Hrun. cbv zeta in Hrun.
  rewrite Hfile in Hrun. cbn [String.eqb Ascii.eqb Bool.eqb] in Hrun.
  pose proof (file_job_footprint env job (model_or (job !! "model") DEFAULT_FILE_MODEL) w)
    as Hf.
  destruct (file_job env job _ w) as [[[result|e|] evs0] w0]; [|discriminate..].
  destruct Hf as (v & f & Hf).
  destruct (job !! "out") as [out|]; [|discriminate].
  destruct (write_error env (joinpath env outdir out)); [discriminate|].
  injection Hrun as <- <-.
  exists v, f.
  change (vs_created ?x) with (fp_vs_created (footprint_of x)).
  change (vs_deleted ?x) with (fp_vs_deleted (footprint_of x)).
  change (files_uploaded ?x) with (fp_files_uploaded (footprint_of x)).
  change (files_deleted ?x) with (fp_files_deleted (footprint_of x)).
  rewrite footprint_with_written, Hf. repeat split.
Qed.

(** C8.  A [file] job whose [file_path] does not exist raises
    [FileNotFoundError] without any call on the client (no event at all, the
    script of replies untouched); the job loop logs it as an input file that
    was not found, counts it and goes on with the next job. *)
Theorem C8_missing_file_makes_no_remote_call :
  forall env job ty file_path outdir sleep_s w,
    job !! "type" = Some ty ->
    lower ty = "file" ->
    job !! "file_path" = Some file_path ->
    path_exists env (expanduser env file_path) = false ->
    let e := mkExn FileNotFoundError
               (String.append "File not found at path: " (expanduser env file_path)) in
    process_job env job outdir sleep_s w = (Exc e, [], w)
    /\ classify e = InputFileNotFound
    /\ forall i rest n,
         job_loop env outdir sleep_s i (Mapping job :: rest) n w
         = after [JobHeader i job; JobError i InputFileNotFound e]
                 (job_loop env outdir sleep_s (S i) rest (n + 1) w).
Proof.
  intros env job ty file_path outdir sleep_s w Hty Hfile Hpath Hex e.
  assert (Hrun : process_job env job outdir sleep_s w = (Exc e, [], w)).
  { rewrite process_job_run, Hty. cbv zeta. rewrite Hfile.
    cbn [String.eqb Ascii.eqb Bool.eqb].
    unfold file_job, bind. now rewrite Hpath, Hex. }
  split; [exact Hrun|]. split; [reflexivity|].
  intros i rest n. cbn [job_loop].
  unfold bind at 1. unfold emit at 1. unfold bind at 1. unfold try_except at 1.
  unfold bind at 1. rewrite Hrun.
  change (classify e) with InputFileNotFound. cbv iota.
  unfold bind at 1. unfold emit at 1. unfold ret at 1. cbn [app].
  destruct (job_loop env outdir sleep_s (S i) rest (n + 1) w) as [[o evs] w'].
  reflexivity.
Qed.

(** ** The job loop *)

(** One turn of the loop, on a mapping. *)
Lemma job_loop_step env outdir sleep_s i job rest n w :
  job_loop env outdir sleep_s i (Mapping job :: rest) n w
  = match process_job env job outdir sleep_s w with
    | (Ret _, evs, w') =>
        after (JobHeader i job :: evs) (job_loop env outdir sleep_s (S i) rest n w')
    | (Exc e, evs, w') =>
        if stops_the_loop e then (Exc (no_status_code e), JobHeader i job :: evs, w')
        else after (JobHeader i job :: evs ++ [JobError i (classify e) e])
                   (job_loop env outdir sleep_s (S i) rest (n + 1) w')
    | (Hang, evs, w') => (Hang, JobHeader i job :: evs, w')
    end.
Proof.
  cbn [job_loop].
  unfold bind at 1. unfold emit at 1. unfold bind at 1. unfold try_except at 1.
  unfold bind at 1.
  destruct (process_job env job outdir sleep_s w) as [[[[]|e|] evs] w'].
  - unfold ret at 1. rewrite app_nil_r.
    destruct (job_loop env outdir sleep_s (S i) rest n w') as [[o evs'] w''].
    reflexivity.
  - unfold stops_the_loop.
    destruct (classify e) eqn:Hk;
      try (unfold bind at 1; unfold emit at 1; unfold ret at 1; cbn [app];
           destruct (job_loop env outdir sleep_s (S i) rest (n + 1) w')
             as [[o evs'] w'']; reflexivity).
    destruct (has_status_code e); cbn [negb].
    + unfold bind at 1. unfold emit at 1. unfold ret at 1. cbn [app].
      destruct (job_loop env outdir sleep_s (S i) rest (n + 1) w') as [[o evs'] w''].
      reflexivity.
    + unfold raise. now rewrite app_nil_r.
  - reflexivity.
Qed.

(** An [APIError] stops the loop exactly when it has no [status_code]. *)
Lemma stops_the_loop_iff e :
  stops_the_loop e = isinstance_APIError e && negb (has_status_code e).
Proof. destruct e as [[] m]; reflexivity. Qed.

(** [process_job] records nothing of the job loop, and at most one write,
    to [outdir / out]. *)
Lemma process_job_quiet env job outdir sleep_s w :
  match process_job env job outdir sleep_s w with
  | (Ret _, evs, _) =>
      attempted evs = [] /\ logged evs = []
      /\ exists out, job !! "out" = Some out /\ written evs = [joinpath env outdir out]
  | (Exc _, evs, _) => attempted evs = [] /\ logged evs = [] /\ written evs = []
  | (Hang, _, _) => True
  end.
Proof.
  pose proof (process_job_footprint env job outdir sleep_s w) as H.
  destruct (process_job env job outdir sleep_s w) as [[[[]|e|] evs] w']; trivial.
  - destruct H as (out & Hout & H).
    change (attempted evs) with (fp_attempted (footprint_of evs)).
    change (logged evs) with (fp_logged (footprint_of evs)).
    change (written evs) with (fp_written (footprint_of evs)).
    destruct H as [->|(v & f & ->)]; repeat split; eauto.
  - change (attempted evs) with (fp_attempted (footprint_of evs)).
    change (logged evs) with (fp_logged (footprint_of evs)).
    change (written evs) with (fp_written (footprint_of evs)).
    destruct H as [->|[(f & ->)|[(v & f & ->)|(v & f & ->)]]]; repeat split.
Qed.

(** How the loop ends: with the count of the jobs that raised, every job
    having been attempted; or with the [AttributeError] of a header or of
    the [except APIError] clause, the jobs after it not attempted; or not at
    all, a job being left without an answer. *)
Lemma job_loop_outcome env outdir sleep_s jobs :
  forall i n w,
    let outcomes := dispatch_outcomes env outdir sleep_s jobs w in
    match job_loop env outdir sleep_s i jobs n w with
    | (Ret n', evs, _) =>
        map Mapping (attempted evs) = jobs
        /\ length outcomes = length jobs
        /\ existsb has_hung outcomes = false
        /\ n' = (n + raised_count outcomes)%nat
        /\ length (logged evs) = raised_count outcomes
    | (Exc e, _, _) => cls e = OtherException "AttributeError"
    | (Hang, _, _) => existsb has_hung outcomes = true
    end.
Proof.
  induction jobs as [|[job|msg] rest IH]; intros i n w outcomes; subst outcomes.
  - cbn. repeat split. unfold raised_count. cbn. lia.
  - rewrite job_loop_step. cbn [dispatch_outcomes].
    pose proof (process_job_quiet env job outdir sleep_s w) as Hq.
    destruct (process_job env job outdir sleep_s w) as [[[[]|e|] evs] w'].
    + destruct Hq as (Ha & Hl & _).
      specialize (IH (S i) n w'). cbv zeta in IH.
      destruct (job_loop env outdir sleep_s (S i) rest n w') as [[[n'|e'|] evs'] w''];
        cbn [after]; trivial.
      destruct IH as (IH1 & IH2 & IH3 & IH4 & IH5).
      change (JobHeader i job :: evs) with ([JobHeader i job] ++ evs).
      rewrite <- !app_assoc, attempted_app, attempted_app, logged_app, logged_app.
      rewrite Ha, Hl. cbn. rewrite IH1. unfold raised_count in *. cbn. auto.
    + destruct Hq as (Ha & Hl & _).
      destruct (stops_the_loop e) eqn:Hs.
      * reflexivity.
      * specialize (IH (S i) (n + 1)%nat w'). cbv zeta in IH.
        destruct (job_loop env outdir sleep_s (S i) rest (n + 1) w')
          as [[[n'|e'|] evs'] w'']; cbn [after]; trivial.
        destruct IH as (IH1 & IH2 & IH3 & IH4 & IH5).
        change (JobHeader i job :: evs ++ [JobError i (classify e) e])
          with ([JobHeader i job] ++ evs ++ [JobError i (classify e) e]).
        rewrite <- !app_assoc.
        rewrite !attempted_app, !logged_app, Ha, Hl. cbn. rewrite IH1.
        unfold raised_count in *. cbn. repeat split; auto; lia.
    + reflexivity.
  - reflexivity.
Qed.

(** C4.  The job loop does let an exception out: when [process_job] raises
    an [APIError] that carries no [status_code] (the base class, a
    connection error, a timeout), the [except APIError] clause raises
    [AttributeError] while it formats its message.  The loop ends there:
    the failure is neither logged nor counted, and the jobs after it are
    not attempted. *)
Theorem C4_api_error_without_status_code_stops_the_run :
  forall env outdir sleep_s i job rest n w e evs w',
    process_job env job outdir sleep_s w = (Exc e, evs, w') ->
    isinstance_APIError e = true ->
    has_status_code e = false ->
    job_loop env outdir sleep_s i (Mapping job :: rest) n w
    = (Exc (no_status_code e), JobHeader i job :: evs, w')
    /\ attempted (JobHeader i job :: evs) = [job]
    /\ logged (JobHeader i job :: evs) = [].
Proof.
  intros env outdir sleep_s i job rest n w e evs w' Hrun Hapi Hst.
  pose proof (process_job_quiet env job outdir sleep_s w) as Hq.
  rewrite job_loop_step, Hrun, stops_the_loop_iff, Hapi, Hst. cbn [andb negb].
  rewrite Hrun in Hq. destruct Hq as (Ha & Hl & _).
  cbn [attempted logged]. now rewrite Ha, Hl.
Qed.

(** The run of [two_jobs] when the connection fails on the first query:
    the second job is not attempted, and [cli] ends with the
    [AttributeError], exit status 1 and no summary. *)
Lemma C4_witness :
  job_loop demo_env "stash/run" (1 # 4) 1 two_jobs 0 world_connection_fails
  = (Exc (mkExn (OtherException "AttributeError")
            "'APIConnectionError' object has no attribute 'status_code'"),
     [ JobHeader 1 (web_job "latest emperor penguin population study" "penguin_pop.json");
       Remote (responses_create "gpt-4.1" [web_search_preview]
                 "latest emperor penguin population study")
              (Some (Raised connection_failed)) ],
     mkWorld [Returned (answer "About 400 Mt.")] 0)
  /\ attempted
       [ JobHeader 1 (web_job "latest emperor penguin population study" "penguin_pop.json");
         Remote (responses_create "gpt-4.1" [web_search_preview]
                   "latest emperor penguin population study")
                (Some (Raised connection_failed)) ]
     = [web_job "latest emperor penguin population study" "penguin_pop.json"]
  /\ logged
       [ JobHeader 1 (web_job "latest emperor penguin population study" "penguin_pop.json");
         Remote (responses_create "gpt-4.1" [web_search_preview]
                   "latest emperor penguin population study")
                (Some (Raised connection_failed)) ]
     = [].
Proof.
  exact (C4_api_error_without_status_code_stops_the_run demo_env "stash/run" (1 # 4) 1
           (web_job "latest emperor penguin population study" "penguin_pop.json")
           [Mapping (web_job "krill biomass 2024" "krill.json")] 0
           world_connection_fails connection_failed _ _ eq_refl eq_refl eq_refl).
Defined.

(** ** The scenarios, evaluated *)

Example file_job_succeeds :
  let '(o, evs, w') := process_job demo_env demo_file_job "stash/run" (1 # 4) world_success in
  o = Ret tt
  /\ calls evs
     = [ files_create "docs/my_document.pdf" "assistants";
         vector_stores_create "temp_vs_my_document_20250101_000000";
         vector_stores_files_create "vs-1" "file-1";
         vector_stores_files_retrieve "vs-1" "file-1";
         vector_stores_files_retrieve "vs-1" "file-1";
         vector_stores_files_retrieve "vs-1" "file-1";
         responses_create "gpt-4o-mini" [file_search ["vs-1"]] "Summarize the document.";
         vector_stores_delete "vs-1" ]
  /\ written evs = ["stash/run/my_document_summary.json"]
  /\ replies w' = [].
Proof. vm_compute. repeat split. Qed.

Example file_job_processing_fails :
  let '(o, evs, w') := process_job demo_env demo_file_job "stash/run" (1 # 4) world_failed in
  o = Exc (mkExn RuntimeError "File processing failed: bad format")
  /\ vs_deleted evs = ["vs-1"] /\ files_deleted evs = ["file-1"]
  /\ written evs = [] /\ replies w' = [].
Proof. vm_compute. repeat split. Qed.

(** The five ways a [file] job ends once its store is created: in each the
    store is deleted once. *)
Example vs_deleted_once_on_each_path :
  let run script :=
    vs_deleted (snd (fst (process_job demo_env demo_file_job "stash/run" 0
      (mkWorld (Returned (remote_id "file-1") :: Returned (remote_id "vs-1") :: script) 0)))) in
  let gone := Returned (remote_id "") in
  let boom := Raised (mkExn (OtherException "ConnectionResetError") "reset") in
  (* the addition of the file fails *)
  run [boom; gone; gone] = ["vs-1"]
  (* a status check fails *)
  /\ run [Returned (membership "in_progress" None); boom; gone; gone] = ["vs-1"]
  (* the status is [failed] *)
  /\ run [Returned (membership "in_progress" None);
          Returned (membership "failed" None); gone; gone] = ["vs-1"]
  (* the query fails *)
  /\ run [Returned (membership "in_progress" None);
          Returned (membership "completed" None); boom; gone] = ["vs-1"]
  (* the query succeeds *)
  /\ run [Returned (membership "in_progress" None);
          Returned (membership "completed" None); Returned (answer "ok"); gone] = ["vs-1"].
Proof. vm_compute. repeat split. Qed.


Lemma C1_witness :
  exists evs w',
    process_job demo_env demo_file_job "stash/run" (1 # 4) world_success = (Ret tt, evs, w')
    /\ exists v f,
         vs_created evs = [v]
         /\ vs_deleted evs = (if truthy v then [v] else [])
         /\ files_uploaded evs = [f]
         /\ files_deleted evs = [].
Proof.
  destruct (process_job demo_env demo_file_job "stash/run" (1 # 4) world_success)
    as [[o evs] w'] eqn:E.
  assert (Ho : o = Ret tt) by (vm_compute in E; now injection E as <- _ _).
  subst o. exists evs, w'. split; [reflexivity|].
  apply (C1_returning_file_job_keeps_uploaded_file
           demo_env demo_file_job "file" "stash/run" (1 # 4) world_success evs w');
    [reflexivity | reflexivity | exact E].
Defined.

(** [pending, pending, completed]: three status checks, then the identifier
    of the store. *)
Example three_status_checks :
  let '(o, evs, _) :=
    setup_file_search_vector_store demo_env "docs/my_document.pdf"
      (mkWorld [ Returned (remote_id "file-1"); Returned (remote_id "vs-1");
                 Returned (membership "in_progress" None);
                 Returned (membership "pending" None);
                 Returned (membership "pending" None);
                 Returned (membership "completed" None) ] 0) in
  o = Ret "vs-1" /\ status_checks evs = 3%nat.
Proof. vm_compute. split; reflexivity. Qed.

Lemma C3_witness :
  let pre := [membership "pending" None; membership "in_progress" None] in
  let run script :=
    setup_file_search_vector_store demo_env "docs/my_document.pdf"
      (mkWorld (Returned (remote_id "file-1") :: Returned (remote_id "vs-1")
                :: Returned (membership "in_progress" None)
                :: map Returned pre ++ script) 0) in
  (exists evs,
     run [Returned (membership "completed" None)] = (Ret "vs-1", evs, mkWorld [] 1)
     /\ status_checks evs = 3%nat)
  /\ (exists e evs,
        run [Returned (membership "failed" (Some "bad format"));
             Returned (remote_id ""); Returned (remote_id "")]
        = (Exc e, evs, mkWorld [] 1)
        /\ cls e = RuntimeError
        /\ (forall m, Some "bad format" = Some m -> Contains (message e) m)
        /\ status_checks evs = 3%nat)
  /\ (exists evs w', run [] = (Hang, evs, w') /\ status_checks evs = 3%nat).
Proof.
  intros pre run.
  assert (Hpre : Forall (fun o => terminal (obj_status o) = false) pre)
    by (repeat constructor).
  destruct (C3_polling_exits_only_on_terminal_status
              demo_env "docs/my_document.pdf" (remote_id "file-1") (remote_id "vs-1")
              (membership "in_progress" None) pre 0 eq_refl Hpre) as (H1 & H2 & H3).
  split; [|split].
  - exact (H1 (membership "completed" None) [] eq_refl).
  - exact (H2 (membership "failed" (Some "bad format"))
              (Returned (remote_id "")) (Returned (remote_id "")) [] eq_refl).
  - exact H3.
Defined.

Lemma C7_witness :
  (poll_loop demo_env "vs-1" "file-1"
     (mkWorld [Raised rate_limited; Returned (membership "completed" None)] 0)
   = (Ret tt,
      [ Remote (vector_stores_files_retrieve "vs-1" "file-1") (Some (Raised rate_limited));
        Sleep (5 * 2);
        Remote (vector_stores_files_retrieve "vs-1" "file-1")
               (Some (Returned (membership "completed" None))) ],
      mkWorld [] 0))
  /\ (poll_loop demo_env "vs-1" "file-1"
        (mkWorld [ Raised connection_reset; Raised rate_limited;
                   Returned (remote_id "file-1") ] 0)
      = (Exc connection_reset,
         [ Remote (vector_stores_files_retrieve "vs-1" "file-1") (Some (Raised connection_reset));
           Remote (vector_stores_delete "vs-1") (Some (Raised rate_limited));
           Remote (files_delete "file-1") (Some (Returned (remote_id "file-1"))) ],
         mkWorld [] 0)).
Proof.
  split.
  - destruct (C7_transient_retry_and_fatal_cleanup demo_env "vs-1" "file-1" rate_limited
                [Returned (membership "completed" None)] 0) as [H _].
    destruct (H eq_refl) as [-> _]. reflexivity.
  - destruct (C7_transient_retry_and_fatal_cleanup demo_env "vs-1" "file-1" connection_reset
                [Raised rate_limited; Returned (remote_id "file-1")] 0) as [_ H].
    exact (H eq_refl _ _ _ eq_refl).
Defined.

Lemma C8_witness :
  let e := mkExn FileNotFoundError "File not found at path: docs/nowhere.pdf" in
  process_job demo_env missing_file_job "stash/run" (1 # 4) world_success
    = (Exc e, [], world_success)
  /\ classify e = InputFileNotFound
  /\ forall i rest n,
       job_loop demo_env "stash/run" (1 # 4) i (Mapping missing_file_job :: rest) n
         world_success
       = after [JobHeader i missing_file_job; JobError i InputFileNotFound e]
               (job_loop demo_env "stash/run" (1 # 4) (S i) rest (n + 1) world_success).
Proof.
  exact (C8_missing_file_makes_no_remote_call
           demo_env missing_file_job "FILE" "docs/nowhere.pdf" "stash/run" (1 # 4)
           world_success eq_refl eq_refl eq_refl eq_refl).
Defined.

Lemma C10_witness :
  setup_file_search_vector_store demo_env "docs/my_document.pdf" world_failed
  = (Exc (mkExn RuntimeError "File processing failed: bad format"),
     [ Remote (files_create "docs/my_document.pdf" "assistants")
              (Some (Returned (remote_id "file-1")));
       Remote (vector_stores_create "temp_vs_my_document_20250101_000000")
              (Some (Returned (remote_id "vs-1")));
       Remote (vector_stores_files_create "vs-1" "file-1")
              (Some (Returned (membership "in_progress" None)));
       Remote (vector_stores_files_retrieve "vs-1" "file-1")
              (Some (Returned (membership "in_progress" None)));
       Sleep 5;
       Remote (vector_stores_files_retrieve "vs-1" "file-1")
              (Some (Returned (membership "failed" (Some "bad format"))));
       Remote (vector_stores_delete "vs-1") (Some (Raised (mkExn APIError "delete failed")));
       Remote (files_delete "file-1") (Some (Returned (remote_id "file-1"))) ],
     mkWorld [] 1).
Proof.
  assert (Hpre : Forall (fun o => terminal (obj_status o) = false)
                   [membership "in_progress" None]) by (repeat constructor).
  exact (proj1 (C10_failed_status_cleans_up_before_raising
           demo_env "docs/my_document.pdf" (remote_id "file-1") (remote_id "vs-1")
           (membership "in_progress" None) [membership "in_progress" None]
           (membership "failed" (Some "bad format"))
           (Raised (mkExn APIError "delete failed")) (Returned (remote_id "file-1")) [] 0
           eq_refl Hpre eq_refl)).
Defined.

(** ** Malformed jobs *)

(** Three [web] jobs of which the second has no [query]: the first and the
    third are written and one failure is counted, logged as an unexpected
    error. *)
Example three_jobs_one_unexpected_error :
  let '(o, evs, _) := job_loop demo_env "stash/run" (1 # 4) 1 three_jobs 0 world_two_answers in
  o = Ret 1%nat
  /\ logged evs = [(2%nat, UnexpectedError)]
  /\ ~ In (2%nat, ConfigurationError) (logged evs)
  /\ written evs = ["stash/run/penguin_pop.json"; "stash/run/krill.json"].
Proof.
  vm_compute. split; [reflexivity|]. split; [reflexivity|]. split; [|reflexivity].
  intros [H|[]]. discriminate H.
Qed.

(** C5.  A [web] job without [query] does not fail as a configuration
    error: [job["query"]] raises [KeyError], which reaches the last [except]
    clause, so that the failure is logged as an unexpected error.  It is
    counted and the loop goes on with the next job. *)
Theorem C5_missing_query_is_logged_as_unexpected :
  forall env job ty outdir sleep_s w i rest n,
    job !! "type" = Some ty ->
    lower ty = "web" ->
    job !! "query" = None ->
    let e := mkExn KeyError "'query'" in
    process_job env job outdir sleep_s w = (Exc e, [], w)
    /\ classify e = UnexpectedError
    /\ classify e <> ConfigurationError
    /\ job_loop env outdir sleep_s i (Mapping job :: rest) n w
       = after [JobHeader i job; JobError i UnexpectedError e]
               (job_loop env outdir sleep_s (S i) rest (n + 1) w).
Proof.
  intros env job ty outdir sleep_s w i rest n Hty Hweb Hquery e.
  assert (Hrun : process_job env job outdir sleep_s w = (Exc e, [], w)).
  { rewrite process_job_run, Hty. cbv zeta. rewrite Hweb.
    cbn [String.eqb Ascii.eqb Bool.eqb]. unfold bind, getitem. now rewrite Hquery. }
  split; [exact Hrun|]. split; [reflexivity|]. split; [discriminate|].
  now rewrite job_loop_step, Hrun.
Qed.

Lemma C5_witness :
  let job := delete "query" (web_job "" "second.json") in
  let e := mkExn KeyError "'query'" in
  process_job demo_env job "stash/run" (1 # 4) world_two_answers
    = (Exc e, [], world_two_answers)
  /\ classify e = UnexpectedError
  /\ classify e <> ConfigurationError
  /\ job_loop demo_env "stash/run" (1 # 4) 2
       [Mapping job; Mapping (web_job "krill biomass 2024" "krill.json")] 1
       world_two_answers
     = after [JobHeader 2 job; JobError 2 UnexpectedError e]
             (job_loop demo_env "stash/run" (1 # 4) 3
                [Mapping (web_job "krill biomass 2024" "krill.json")] (1 + 1)
                world_two_answers).
Proof.
  exact (C5_missing_query_is_logged_as_unexpected demo_env
           (delete "query" (web_job "" "second.json")) "web" "stash/run" (1 # 4)
           world_two_answers 2 [Mapping (web_job "krill biomass 2024" "krill.json")] 1
           eq_refl eq_refl eq_refl).
Defined.

(** ** The exit status *)

(** The directory of a run: the output directory of the command line joined
    with the time read at start-up. *)
Lemma cli_run env0 args OPENAI_API_KEY w :
  cli env0 args OPENAI_API_KEY w
  = let env := set_POLL_INTERVAL_S env0 (args_poll_interval args) in
    let outdir := joinpath env0 (args_outdir args) (timestamp_at env0 (clock w)) in
    let w1 := mkWorld (replies w) (S (clock w)) in
    if negb (truthy (default "" OPENAI_API_KEY)) then (Ret 1%nat, [], w)
    else match mkdir_error env0 outdir with
         | Some e => (Exc e, [], w1)
         | None =>
             match args_jobs args with
             | JobList jobs =>
                 match job_loop env outdir (args_sleep args) 1 jobs 0 w1 with
                 | (Ret job_failures, evs, w') =>
                     (Ret 0%nat, MkDir outdir :: evs ++ [Summary job_failures], w')
                 | (Exc e, evs, w') => (Exc e, MkDir outdir :: evs, w')
                 | (Hang, evs, w') => (Hang, MkDir outdir :: evs, w')
                 end
             | _ => (Ret 1%nat, [MkDir outdir], w1)
             end
         end.
Proof.
  unfold cli. cbv zeta.
  destruct (truthy (default "" OPENAI_API_KEY)); cbn [negb]; [|reflexivity].
  unfold bind at 1. unfold _timestamp at 1. cbn [timestamp_at set_POLL_INTERVAL_S joinpath
    mkdir_error]. unfold bind at 1.
  destruct (mkdir_error env0 _); [reflexivity|].
  unfold emit at 1.
  destruct (args_jobs args) as [jobs| | | |]; try reflexivity.
  unfold bind at 1.
  destruct (job_loop _ _ (args_sleep args) 1 jobs 0 _) as [[[n|e|] evs] w']; reflexivity.
Qed.

(** C6, as stated, fails: a run in which one job failed exits with
    status 0. *)
Lemma C6_counterexample :
  let '(o, evs, _) := cli demo_env demo_args (Some "sk-test") world_two_answers in
  exit_status o = Some 0%nat
  /\ In (Summary 1) evs
  /\ ~ (0 <> 0 <-> 1 <= 1)%nat.
Proof.
  vm_compute. split; [reflexivity|]. split.
  - repeat (first [left; reflexivity | right]).
  - intros [_ H]. now apply H.
Qed.

(** C6, amended.  When the job loop of a run comes to its end, [cli] prints
    the summary with the number of failed jobs and returns: the exit status
    of the process is 0, whatever that number. *)
Theorem C6_exit_status_ignores_job_failures :
  forall env0 args OPENAI_API_KEY w jobs job_failures evs w',
    let env := set_POLL_INTERVAL_S env0 (args_poll_interval args) in
    let outdir := joinpath env0 (args_outdir args) (timestamp_at env0 (clock w)) in
    truthy (default "" OPENAI_API_KEY) = true ->
    mkdir_error env0 outdir = None ->
    args_jobs args = JobList jobs ->
    job_loop env outdir (args_sleep args) 1 jobs 0 (mkWorld (replies w) (S (clock w)))
      = (Ret job_failures, evs, w') ->
    cli env0 args OPENAI_API_KEY w
      = (Ret 0%nat, MkDir outdir :: evs ++ [Summary job_failures], w')
    /\ exit_status (fst (fst (cli env0 args OPENAI_API_KEY w))) = Some 0%nat.
Proof.
  intros env0 args key w jobs n evs w' env outdir Hk Hm Hj Hloop.
  assert (H : cli env0 args key w = (Ret 0%nat, MkDir outdir :: evs ++ [Summary n], w')).
  { rewrite cli_run. cbv zeta. fold env. fold outdir.
    rewrite Hk, Hm, Hj, Hloop. reflexivity. }
  split; [exact H|]. now rewrite H.
Qed.

Lemma C6_witness :
  exists evs w',
    cli demo_env demo_args (Some "sk-test") world_two_answers
      = (Ret 0%nat, MkDir "stash/20250101_000000" :: evs ++ [Summary 1], w')
    /\ exit_status (fst (fst (cli demo_env demo_args (Some "sk-test") world_two_answers)))
       = Some 0%nat.
Proof.
  destruct (job_loop (set_POLL_INTERVAL_S demo_env (args_poll_interval demo_args))
              "stash/20250101_000000" (args_sleep demo_args) 1 three_jobs 0
              (mkWorld (replies world_two_answers) 1)) as [[o evs] w'] eqn:E.
  assert (Ho : o = Ret 1%nat) by (vm_compute in E; now injection E as <- _ _).
  subst o. exists evs, w'.
  exact (C6_exit_status_ignores_job_failures demo_env demo_args (Some "sk-test")
           world_two_answers three_jobs 1%nat evs w' eq_refl eq_refl eq_refl E).
Defined.

(** ** Output paths *)





(** * Further properties *)

(** ** The steps of [setup_file_search_vector_store] before polling *)

(** Runs the first steps of [setup_file_search_vector_store] on a script
    whose first replies are known. *)
Ltac run_setup Hopen :=
  unfold setup_file_search_vector_store;
  cbv [bind try_except ignore_errors remote raise ret _timestamp replies clock];
  rewrite Hopen;
  cbv [bind try_except ignore_errors remote raise ret _timestamp replies clock].

(** X1.  When the file cannot be opened, or the upload raises,
    [setup_file_search_vector_store] raises that exception again having
    made no other call: nothing is created and no deletion is attempted. *)
Theorem X1_upload_failure_needs_no_cleanup :
  forall env path,
    (forall e w, open_error env path = Some e ->
       setup_file_search_vector_store env path w = (Exc e, [], w))
    /\ (forall e rest c, open_error env path = None ->
          setup_file_search_vector_store env path (mkWorld (Raised e :: rest) c)
          = (Exc e,
             [Remote (files_create path "assistants") (Some (Raised e))],
             mkWorld rest c)).
Proof.
  intros env path. split.
  - intros e w Hopen. run_setup Hopen. reflexivity.
  - intros e rest c Hopen. run_setup Hopen. reflexivity.
Qed.

(** X2.  When the creation of the vector store raises,
    [setup_file_search_vector_store] calls the deletion of the uploaded file
    once, whatever that deletion answers, and raises the exception of the
    creation again; it does not call the deletion of a vector store. *)
Theorem X2_creation_failure_deletes_uploaded_file :
  forall env path file_obj e r rest c,
    open_error env path = None ->
    setup_file_search_vector_store env path
      (mkWorld (Returned file_obj :: Raised e :: r :: rest) c)
    = (Exc e,
       [ Remote (files_create path "assistants") (Some (Returned file_obj));
         Remote (vector_stores_create
                   (String.append "temp_vs_"
                      (String.append (path_stem env path)
                         (String.append "_" (timestamp_at env c)))))
                (Some (Raised e));
         Remote (files_delete (obj_id file_obj)) (Some r) ],
       mkWorld rest (S c)).
Proof.
  intros env path file_obj e r rest c Hopen. run_setup Hopen.
  destruct r; reflexivity.
Qed.

(** X3.  When adding the file to the vector store raises,
    [setup_file_search_vector_store] calls the deletion of the vector store,
    then the deletion of the uploaded file, whatever the two deletions
    answer, and raises the exception of the addition again. *)
Theorem X3_addition_failure_deletes_store_and_file :
  forall env path file_obj vector_store e r1 r2 rest c,
    open_error env path = None ->
    setup_file_search_vector_store env path
      (mkWorld (Returned file_obj :: Returned vector_store :: Raised e
                :: r1 :: r2 :: rest) c)
    = (Exc e,
       [ Remote (files_create path "assistants") (Some (Returned file_obj));
         Remote (vector_stores_create
                   (String.append "temp_vs_"
                      (String.append (path_stem env path)
                         (String.append "_" (timestamp_at env c)))))
                (Some (Returned vector_store));
         Remote (vector_stores_files_create (obj_id vector_store) (obj_id file_obj))
                (Some (Raised e));
         Remote (vector_stores_delete (obj_id vector_store)) (Some r1);
         Remote (files_delete (obj_id file_obj)) (Some r2) ],
       mkWorld rest (S c)).
Proof.
  intros env path file_obj vector_store e r1 r2 rest c Hopen. run_setup Hopen.
  destruct r1, r2; reflexivity.
Qed.

(** X4.  [setup_file_search_vector_store] leaves nothing behind when it
    raises: on every script of replies, the files it has uploaded are the
    files it has called the deletion of, and the same for the vector stores.
    When it returns it has uploaded one file, created the store whose
    identifier it returns, and deleted nothing. *)
Theorem X4_setup_undoes_what_it_did_when_it_raises :
  forall env path w,
    match setup_file_search_vector_store env path w with
    | (Ret v, evs, _) =>
        vs_created evs = [v] /\ length (files_uploaded evs) = 1%nat
        /\ vs_deleted evs = [] /\ files_deleted evs = []
    | (Exc _, evs, _) =>
        files_deleted evs = files_uploaded evs /\ vs_deleted evs = vs_created evs
        /\ (length (files_uploaded evs) <= 1)%nat /\ (length (vs_created evs) <= 1)%nat
    | (Hang, _, _) => True
    end.
Proof.
  intros env path w.
  pose proof (setup_footprint env path w) as H.
  destruct (setup_file_search_vector_store env path w) as [[[v|e|] evs] w']; trivial.
  - destruct H as (f & H).
    change (vs_created evs) with (fp_vs_created (footprint_of evs)).
    change (vs_deleted evs) with (fp_vs_deleted (footprint_of evs)).
    change (files_uploaded evs) with (fp_files_uploaded (footprint_of evs)).
    change (files_deleted evs) with (fp_files_deleted (footprint_of evs)).
    rewrite H. repeat split.
  - change (vs_created evs) with (fp_vs_created (footprint_of evs)).
    change (vs_deleted evs) with (fp_vs_deleted (footprint_of evs)).
    change (files_uploaded evs) with (fp_files_uploaded (footprint_of evs)).
    change (files_deleted evs) with (fp_files_deleted (footprint_of evs)).
    destruct H as [H|[(f & H)|(v & f & H)]]; rewrite H; cbn; repeat split; lia.
Qed.

Lemma X1_witness :
  setup_file_search_vector_store demo_env "docs/my_document.pdf"
    (mkWorld [Raised connection_reset; Returned (remote_id "vs-1")] 0)
  = (Exc connection_reset,
     [Remote (files_create "docs/my_document.pdf" "assistants")
             (Some (Raised connection_reset))],
     mkWorld [Returned (remote_id "vs-1")] 0).
Proof.
  exact (proj2 (X1_upload_failure_needs_no_cleanup demo_env "docs/my_document.pdf")
           connection_reset [Returned (remote_id "vs-1")] 0 eq_refl).
Defined.

Lemma X2_witness :
  setup_file_search_vector_store demo_env "docs/my_document.pdf"
    (mkWorld [Returned (remote_id "file-1"); Raised rate_limited;
              Raised connection_reset] 0)
  = (Exc rate_limited,
     [ Remote (files_create "docs/my_document.pdf" "assistants")
              (Some (Returned (remote_id "file-1")));
       Remote (vector_stores_create "temp_vs_my_document_20250101_000000")
              (Some (Raised rate_limited));
       Remote (files_delete "file-1") (Some (Raised connection_reset)) ],
     mkWorld [] 1).
Proof.
  exact (X2_creation_failure_deletes_uploaded_file demo_env "docs/my_document.pdf"
           (remote_id "file-1") rate_limited (Raised connection_reset) [] 0 eq_refl).
Defined.

Lemma X3_witness :
  setup_file_search_vector_store demo_env "docs/my_document.pdf"
    (mkWorld [Returned (remote_id "file-1"); Returned (remote_id "vs-1");
              Raised rate_limited; Raised connection_reset;
              Returned (remote_id "file-1")] 0)
  = (Exc rate_limited,
     [ Remote (files_create "docs/my_document.pdf" "assistants")
              (Some (Returned (remote_id "file-1")));
       Remote (vector_stores_create "temp_vs_my_document_20250101_000000")
              (Some (Returned (remote_id "vs-1")));
       Remote (vector_stores_files_create "vs-1" "file-1") (Some (Raised rate_limited));
       Remote (vector_stores_delete "vs-1") (Some (Raised connection_reset));
       Remote (files_delete "file-1") (Some (Returned (remote_id "file-1"))) ],
     mkWorld [] 1).
Proof.
  exact (X3_addition_failure_deletes_store_and_file demo_env "docs/my_document.pdf"
           (remote_id "file-1") (remote_id "vs-1") rate_limited
           (Raised connection_reset) (Returned (remote_id "file-1")) [] 0 eq_refl).
Defined.

(** ** Polling through transient errors *)

Lemma retry_events_footprint env vs fid pre :
  footprint_of (retry_events env vs fid pre) = fp_empty
  /\ status_checks (retry_events env vs fid pre) = length pre.
Proof.
  induction pre as [|r pre [IH1 IH2]]; [now split|].
  unfold retry_events in *. cbn [flat_map length].
  set (q := match r with Returned _ => _ | Raised _ => _ end).
  split.
  - change ((?a :: slept q) ++ ?l) with (a :: slept q ++ l).
    rewrite footprint_cons_slept.
    change (?a :: ?l) with ([a] ++ l). now rewrite footprint_app, IH1.
  - cbn [app status_checks]. now rewrite status_checks_app, slept_status_checks, IH2.
Qed.

Lemma poll_loop_retried_prefix env vs fid pre script c :
  Forall (fun r => retried r = true) pre ->
  poll_loop env vs fid (mkWorld (pre ++ script) c)
  = after (retry_events env vs fid pre) (poll_loop env vs fid (mkWorld script c)).
Proof.
  induction 1 as [|r pre Hr _ IH].
  - destruct (poll_loop _ _ _ _) as [[o evs] w]. reflexivity.
  - cbn [app]. destruct r as [o|e]; cbn [retried] in Hr.
    + rewrite poll_loop_pending by now apply negb_true_iff.
      rewrite IH, after_after. reflexivity.
    + rewrite poll_loop_transient by assumption.
      rewrite IH, after_after. reflexivity.
Qed.

(** X5.  The polling loop has no limit on retries.  Through any run of
    replies that are intermediate statuses or [APIError]s, in any order, it
    goes on checking: it deletes nothing, and it makes one status check per
    reply.  If [completed] comes next it leaves by [break] having used
    exactly the replies up to it; if the replies stop coming it is still
    polling. *)
Theorem X5_polling_retries_without_limit :
  forall env vs fid (pre : list reply) c,
    Forall (fun r => retried r = true) pre ->
    (forall o rest, obj_status o = "completed" ->
       exists evs,
         poll_loop env vs fid (mkWorld (pre ++ Returned o :: rest) c)
         = (Ret tt, evs, mkWorld rest c)
         /\ status_checks evs = S (length pre)
         /\ vs_deleted evs = [] /\ files_deleted evs = [])
    /\ (exists evs w',
          poll_loop env vs fid (mkWorld pre c) = (Hang, evs, w')
          /\ status_checks evs = S (length pre)
          /\ vs_deleted evs = [] /\ files_deleted evs = []).
Proof.
  intros env vs fid pre c Hpre.
  destruct (retry_events_footprint env vs fid pre) as [Hfp Hn].
  assert (Hd : forall tail,
            footprint_of tail = fp_empty ->
            vs_deleted (retry_events env vs fid pre ++ tail) = []
            /\ files_deleted (retry_events env vs fid pre ++ tail) = []).
  { intros tail Ht.
    change (vs_deleted ?x) with (fp_vs_deleted (footprint_of x)).
    change (files_deleted ?x) with (fp_files_deleted (footprint_of x)).
    rewrite footprint_app, Hfp, Ht. now split. }
  split.
  - intros o rest Ho.
    rewrite poll_loop_retried_prefix, poll_loop_completed by assumption.
    eexists. split; [reflexivity|]. split.
    + rewrite status_checks_app, Hn. simpl. lia.
    + now apply Hd.
  - replace (mkWorld pre c) with (mkWorld (pre ++ []) c) by now rewrite app_nil_r.
    rewrite poll_loop_retried_prefix, poll_loop_unanswered by assumption.
    eexists _, _. split; [reflexivity|]. split.
    + rewrite status_checks_app, Hn. simpl. lia.
    + now apply Hd.
Qed.

Lemma X5_witness :
  let pre := [ Raised rate_limited; Returned (membership "in_progress" None);
               Raised rate_limited; Raised (mkExn APIError "Error code: 500") ] in
  (exists evs,
     poll_loop demo_env "vs-1" "file-1"
       (mkWorld (pre ++ [Returned (membership "completed" None)]) 0)
     = (Ret tt, evs, mkWorld [] 0)
     /\ status_checks evs = 5%nat
     /\ vs_deleted evs = [] /\ files_deleted evs = [])
  /\ (exists evs w',
        poll_loop demo_env "vs-1" "file-1" (mkWorld pre 0) = (Hang, evs, w')
        /\ status_checks evs = 5%nat
        /\ vs_deleted evs = [] /\ files_deleted evs = []).
Proof.
  intros pre.
  assert (Hpre : Forall (fun r => retried r = true) pre) by (repeat constructor).
  destruct (X5_polling_retries_without_limit demo_env "vs-1" "file-1" pre 0 Hpre)
    as [H1 H2].
  split; [exact (H1 (membership "completed" None) [] eq_refl) | exact H2].
Defined.

(** ** One [web] job *)

(** The [web] branch of [process_job], once [query] is read. *)
Lemma web_branch_run env job query w :
  job !! "query" = Some query ->
  (let* q := getitem job "query" in
   run_web_search env q (model_or (job !! "model") DEFAULT_WEB_MODEL)) w
  = run_web_search env query (model_or (job !! "model") DEFAULT_WEB_MODEL) w.
Proof.
  intros Hq. unfold bind at 1. unfold getitem. rewrite Hq. unfold ret at 1.
  destruct (run_web_search env query _ w) as [[o evs] w']. reflexivity.
Qed.

(** X6.  A [web] job whose query is answered makes one call, the query with
    the web search tool, on the model of the job or, when the job has none
    or an empty one, on "gpt-4.1"; it then writes, once, to [outdir / out],
    the record of the job's query, the time, that model and the text and
    the items of the answer, and pauses. *)
Theorem X6_web_job_writes_the_answer :
  forall env job ty query out outdir sleep_s response rest c,
    job !! "type" = Some ty ->
    lower ty = "web" ->
    job !! "query" = Some query ->
    job !! "out" = Some out ->
    write_error env (joinpath env outdir out) = None ->
    let model := model_or (job !! "model") "gpt-4.1" in
    process_job env job outdir sleep_s (mkWorld (Returned response :: rest) c)
    = (Ret tt,
       Remote (responses_create model [web_search_preview] query)
              (Some (Returned response))
       :: WriteText (joinpath env outdir out)
            (mkResult query (timestamp_at env c) model None
               (obj_output_text response) (obj_output response))
       :: slept sleep_s,
       mkWorld rest (S c))
    /\ (job !! "model" = None \/ job !! "model" = Some "" -> model = "gpt-4.1")
    /\ (forall m, job !! "model" = Some m -> m <> "" -> model = m).
Proof.
  intros env job ty query out outdir sleep_s response rest c Hty Hweb Hq Hout Hw model.
  split; [|split].
  - rewrite process_job_run, Hty. cbv zeta. rewrite Hweb.
    cbn [String.eqb Ascii.eqb Bool.eqb].
    rewrite (web_branch_run env job query) by assumption.
    cbv [run_web_search bind remote ret _timestamp replies clock].
    cbn [app]. now rewrite Hout, Hw.
  - subst model. intros [->| ->]; reflexivity.
  - subst model. intros m -> Hm. destruct m; [congruence|reflexivity].
Qed.

(** X7.  A [web] job whose query raises makes that one call and no other:
    it does not try again, reads no clock, writes nothing, and the
    exception of the call is what [process_job] raises. *)
Theorem X7_web_job_does_not_retry :
  forall env job ty query outdir sleep_s e rest c,
    job !! "type" = Some ty ->
    lower ty = "web" ->
    job !! "query" = Some query ->
    process_job env job outdir sleep_s (mkWorld (Raised e :: rest) c)
    = (Exc e,
       [Remote (responses_create (model_or (job !! "model") "gpt-4.1")
                  [web_search_preview] query)
               (Some (Raised e))],
       mkWorld rest c).
Proof.
  intros env job ty query outdir sleep_s e rest c Hty Hweb Hq.
  rewrite process_job_run, Hty. cbv zeta. rewrite Hweb.
  cbn [String.eqb Ascii.eqb Bool.eqb].
  rewrite (web_branch_run env job query) by assumption. reflexivity.
Qed.

(** X10.  The [out] field is read only after the query: a [web] job without
    [out] still makes its call and reads the clock, and only then raises
    [KeyError]; nothing is written. *)
Theorem X10_missing_out_is_found_after_the_query :
  forall env job ty query outdir sleep_s response rest c,
    job !! "type" = Some ty ->
    lower ty = "web" ->
    job !! "query" = Some query ->
    job !! "out" = None ->
    process_job env job outdir sleep_s (mkWorld (Returned response :: rest) c)
    = (Exc (mkExn KeyError "'out'"),
       [Remote (responses_create (model_or (job !! "model") "gpt-4.1")
                  [web_search_preview] query)
               (Some (Returned response))],
       mkWorld rest (S c))
    /\ classify (mkExn KeyError "'out'") = UnexpectedError.
Proof.
  intros env job ty query outdir sleep_s response rest c Hty Hweb Hq Hout.
  split; [|reflexivity].
  rewrite process_job_run, Hty. cbv zeta. rewrite Hweb.
  cbn [String.eqb Ascii.eqb Bool.eqb].
  rewrite (web_branch_run env job query) by assumption.
  cbv [run_web_search bind remote ret _timestamp replies clock].
  cbn [app]. now rewrite Hout.
Qed.

Lemma X6_witness :
  process_job demo_env web_job_with_model "stash/run" (1 # 4) world_two_answers
  = (Ret tt,
     [ Remote (responses_create "gpt-4.1-mini" [web_search_preview] "krill biomass 2024")
              (Some (Returned (answer "About 600000.")));
       WriteText "stash/run/krill.json"
         (mkResult "krill biomass 2024" "20250101_000000" "gpt-4.1-mini" None
            "About 600000." ["message"]);
       Sleep (1 # 4) ],
     mkWorld [Returned (answer "About 400 Mt.")] 1).
Proof.
  exact (proj1 (X6_web_job_writes_the_answer demo_env web_job_with_model "web"
           "krill biomass 2024" "krill.json" "stash/run" (1 # 4)
           (answer "About 600000.") [Returned (answer "About 400 Mt.")] 0
           eq_refl eq_refl eq_refl eq_refl eq_refl)).
Defined.

Lemma X7_witness :
  process_job demo_env (web_job "krill biomass 2024" "krill.json") "stash/run" (1 # 4)
    (mkWorld [Raised rate_limited; Returned (answer "About 400 Mt.")] 0)
  = (Exc rate_limited,
     [Remote (responses_create "gpt-4.1" [web_search_preview] "krill biomass 2024")
             (Some (Raised rate_limited))],
     mkWorld [Returned (answer "About 400 Mt.")] 0).
Proof.
  exact (X7_web_job_does_not_retry demo_env (web_job "krill biomass 2024" "krill.json")
           "web" "krill biomass 2024" "stash/run" (1 # 4) rate_limited
           [Returned (answer "About 400 Mt.")] 0 eq_refl eq_refl eq_refl).
Defined.

Lemma X10_witness :
  process_job demo_env (delete "out" (web_job "krill biomass 2024" "krill.json"))
    "stash/run" (1 # 4) world_two_answers
  = (Exc (mkExn KeyError "'out'"),
     [Remote (responses_create "gpt-4.1" [web_search_preview] "krill biomass 2024")
             (Some (Returned (answer "About 600000.")))],
     mkWorld [Returned (answer "About 400 Mt.")] 1).
Proof.
  exact (proj1 (X10_missing_out_is_found_after_the_query demo_env
           (delete "out" (web_job "krill biomass 2024" "krill.json"))
           "web" "krill biomass 2024" "stash/run" (1 # 4)
           (answer "About 600000.") [Returned (answer "About 400 Mt.")] 0
           eq_refl eq_refl eq_refl eq_refl)).
Defined.

(** ** One [file] job, after the set-up *)

(** [file_job] once the file is there and its processing completes, after
    any run of intermediate statuses and [APIError]s: what is left is the
    query and the [finally] block. *)
Lemma file_job_reaches_query env job file_path model file_obj vector_store vs_file
    pre o script c :
  job !! "file_path" = Some file_path ->
  path_exists env (expanduser env file_path) = true ->
  open_error env (expanduser env file_path) = None ->
  Forall (fun r => retried r = true) pre ->
  obj_status o = "completed" ->
  file_job env job model
    (mkWorld (Returned file_obj :: Returned vector_store :: Returned vs_file
              :: pre ++ Returned o :: script) c)
  = after (setup_events env (expanduser env file_path) c file_obj vector_store vs_file
           ++ retry_events env (obj_id vector_store) (obj_id file_obj) pre
           ++ [Remote (vector_stores_files_retrieve (obj_id vector_store) (obj_id file_obj))
                      (Some (Returned o))])
      (try_finally
         (let* query := getitem job "query" in
          run_file_search env query (obj_id vector_store) model)
         (if truthy (obj_id vector_store)
          then cleanup_vector_store (obj_id vector_store)
          else ret tt)
         (mkWorld script (S c))).
Proof.
  intros Hpath Hex Hopen Hpre Ho. unfold file_job. rewrite Hpath, Hex. cbn [negb].
  unfold bind at 1.
  rewrite setup_reaches_polling, poll_loop_retried_prefix, poll_loop_completed
    by assumption.
  cbn [returning after]. unfold after.
  destruct (try_finally _ _ _) as [[o' evs'] w']. reflexivity.
Qed.

(** X8.  A [file] job that succeeds, its file being processed after any run
    of intermediate statuses and [APIError]s: the query is made with the
    file search tool on the one store the job created, on the model of the
    job or "gpt-4o-mini"; the store is deleted after the query and before
    the output is written, whatever the deletion answers; the record written
    carries the identifier of the store and a time read after the one in
    the name of the store. *)
Theorem X8_file_job_queries_its_own_store :
  forall env job ty file_path query out outdir sleep_s
         file_obj vector_store vs_file pre o response r rest c,
    job !! "type" = Some ty ->
    lower ty = "file" ->
    job !! "file_path" = Some file_path ->
    path_exists env (expanduser env file_path) = true ->
    open_error env (expanduser env file_path) = None ->
    job !! "query" = Some query ->
    job !! "out" = Some out ->
    write_error env (joinpath env outdir out) = None ->
    Forall (fun r => retried r = true) pre ->
    obj_status o = "completed" ->
    truthy (obj_id vector_store) = true ->
    let model := model_or (job !! "model") "gpt-4o-mini" in
    let vs := obj_id vector_store in
    process_job env job outdir sleep_s
      (mkWorld (Returned file_obj :: Returned vector_store :: Returned vs_file
                :: pre ++ Returned o :: Returned response :: r :: rest) c)
    = (Ret tt,
       setup_events env (expanduser env file_path) c file_obj vector_store vs_file
       ++ retry_events env vs (obj_id file_obj) pre
       ++ [ Remote (vector_stores_files_retrieve vs (obj_id file_obj)) (Some (Returned o));
            Remote (responses_create model [file_search [vs]] query)
                   (Some (Returned response));
            Remote (vector_stores_delete vs) (Some r);
            WriteText (joinpath env outdir out)
              (mkResult query (timestamp_at env (S c)) model (Some vs)
                 (obj_output_text response) (obj_output response)) ]
       ++ slept sleep_s,
       mkWorld rest (S (S c))).
Proof.
  intros env job ty file_path query out outdir sleep_s file_obj vector_store vs_file
    pre o response r rest c Hty Hfile Hpath Hex Hopen Hq Hout Hw Hpre Ho Hv model vs.
  rewrite process_job_run, Hty. cbv zeta. rewrite Hfile.
  cbn [String.eqb Ascii.eqb Bool.eqb].
  rewrite (file_job_reaches_query env job file_path) by assumption.
  rewrite Hv.
  cbv [try_finally bind getitem run_file_search cleanup_vector_store ignore_errors
       remote ret _timestamp replies clock after].
  rewrite Hq. cbn [app]. rewrite Hout, Hw.
  destruct r; cbn [app]; rewrite <- !app_assoc; reflexivity.
Qed.

(** X11.  The [query] field of a [file] job is read only after the set-up:
    a [file] job without [query] uploads its file, creates its store and
    polls, through any run of intermediate statuses and [APIError]s, until
    the processing completes, and only then raises [KeyError]; no query is
    made, the store is deleted in the [finally] block, and nothing is
    written. *)
Theorem X11_file_job_without_query_sets_up_first :
  forall env job ty file_path outdir sleep_s file_obj vector_store vs_file pre o r rest c,
    job !! "type" = Some ty ->
    lower ty = "file" ->
    job !! "file_path" = Some file_path ->
    path_exists env (expanduser env file_path) = true ->
    open_error env (expanduser env file_path) = None ->
    job !! "query" = None ->
    Forall (fun r => retried r = true) pre ->
    obj_status o = "completed" ->
    truthy (obj_id vector_store) = true ->
    process_job env job outdir sleep_s
      (mkWorld (Returned file_obj :: Returned vector_store :: Returned vs_file
                :: pre ++ Returned o :: r :: rest) c)
    = (Exc (mkExn KeyError "'query'"),
       setup_events env (expanduser env file_path) c file_obj vector_store vs_file
       ++ retry_events env (obj_id vector_store) (obj_id file_obj) pre
       ++ [ Remote (vector_stores_files_retrieve (obj_id vector_store) (obj_id file_obj))
                   (Some (Returned o));
            Remote (vector_stores_delete (obj_id vector_store)) (Some r) ],
       mkWorld rest (S c)).
Proof.
  intros env job ty file_path outdir sleep_s file_obj vector_store vs_file pre o r rest c
    Hty Hfile Hpath Hex Hopen Hq Hpre Ho Hv.
  rewrite process_job_run, Hty. cbv zeta. rewrite Hfile.
  cbn [String.eqb Ascii.eqb Bool.eqb].
  rewrite (file_job_reaches_query env job file_path) by assumption.
  rewrite Hv.
  cbv [try_finally bind getitem raise cleanup_vector_store ignore_errors
       remote ret replies clock after].
  rewrite Hq. cbn [app].
  destruct r; cbn [app]; rewrite <- !app_assoc; reflexivity.
Qed.

(** X12.  When the query of a [file] job raises, the file having been
    processed after any run of intermediate statuses and [APIError]s, the
    store is deleted once in the [finally] block and the exception of the
    query is what [process_job] raises, also when the deletion raises: a
    failed clean-up does not hide the failure of the query.  The uploaded
    file is not deleted and nothing is written. *)
Theorem X12_failed_cleanup_keeps_the_query_error :
  forall env job ty file_path query outdir sleep_s
         file_obj vector_store vs_file pre o e r rest c,
    job !! "type" = Some ty ->
    lower ty = "file" ->
    job !! "file_path" = Some file_path ->
    path_exists env (expanduser env file_path) = true ->
    open_error env (expanduser env file_path) = None ->
    job !! "query" = Some query ->
    Forall (fun r => retried r = true) pre ->
    obj_status o = "completed" ->
    truthy (obj_id vector_store) = true ->
    let vs := obj_id vector_store in
    process_job env job outdir sleep_s
      (mkWorld (Returned file_obj :: Returned vector_store :: Returned vs_file
                :: pre ++ Returned o :: Raised e :: r :: rest) c)
    = (Exc e,
       setup_events env (expanduser env file_path) c file_obj vector_store vs_file
       ++ retry_events env vs (obj_id file_obj) pre
       ++ [ Remote (vector_stores_files_retrieve vs (obj_id file_obj)) (Some (Returned o));
            Remote (responses_create (model_or (job !! "model") "gpt-4o-mini")
                      [file_search [vs]] query)
                   (Some (Raised e));
            Remote (vector_stores_delete vs) (Some r) ],
       mkWorld rest (S c)).
Proof.
  intros env job ty file_path query outdir sleep_s file_obj vector_store vs_file
    pre o e r rest c Hty Hfile Hpath Hex Hopen Hq Hpre Ho Hv vs.
  rewrite process_job_run, Hty. cbv zeta. rewrite Hfile.
  cbn [String.eqb Ascii.eqb Bool.eqb].
  rewrite (file_job_reaches_query env job file_path) by assumption.
  rewrite Hv.
  cbv [try_finally bind getitem run_file_search cleanup_vector_store ignore_errors
       remote ret _timestamp replies clock after].
  rewrite Hq. cbn [app].
  destruct r; cbn [app]; rewrite <- !app_assoc; reflexivity.
Qed.

Lemma X8_witness :
  process_job demo_env demo_file_job "stash/run" (1 # 4)
    (mkWorld [ Returned (remote_id "file-1"); Returned (remote_id "vs-1");
               Returned (membership "in_progress" None);
               Returned (membership "in_progress" None); Raised rate_limited;
               Returned (membership "completed" None);
               Returned (answer "A summary."); Raised connection_reset ] 0)
  = (Ret tt,
     [ Remote (files_create "docs/my_document.pdf" "assistants")
              (Some (Returned (remote_id "file-1")));
       Remote (vector_stores_create "temp_vs_my_document_20250101_000000")
              (Some (Returned (remote_id "vs-1")));
       Remote (vector_stores_files_create "vs-1" "file-1")
              (Some (Returned (membership "in_progress" None)));
       Remote (vector_stores_files_retrieve "vs-1" "file-1")
              (Some (Returned (membership "in_progress" None)));
       Sleep 5;
       Remote (vector_stores_files_retrieve "vs-1" "file-1") (Some (Raised rate_limited));
       Sleep (5 * 2);
       Remote (vector_stores_files_retrieve "vs-1" "file-1")
              (Some (Returned (membership "completed" None)));
       Remote (responses_create "gpt-4o-mini" [file_search ["vs-1"]]
                 "Summarize the document.")
              (Some (Returned (answer "A summary.")));
       Remote (vector_stores_delete "vs-1") (Some (Raised connection_reset));
       WriteText "stash/run/my_document_summary.json"
         (mkResult "Summarize the document." "20250101_000001" "gpt-4o-mini"
            (Some "vs-1") "A summary." ["message"]);
       Sleep (1 # 4) ],
     mkWorld [] 2).
Proof.
  assert (Hpre : Forall (fun r => retried r = true)
                   [Returned (membership "in_progress" None); Raised rate_limited])
    by (repeat constructor).
  exact (X8_file_job_queries_its_own_store demo_env demo_file_job "file"
           "docs/my_document.pdf" "Summarize the document." "my_document_summary.json"
           "stash/run" (1 # 4) (remote_id "file-1") (remote_id "vs-1")
           (membership "in_progress" None)
           [Returned (membership "in_progress" None); Raised rate_limited]
           (membership "completed" None)
           (answer "A summary.") (Raised connection_reset) [] 0
           eq_refl eq_refl eq_refl eq_refl eq_refl eq_refl eq_refl eq_refl Hpre
           eq_refl eq_refl).
Defined.

Lemma X11_witness :
  process_job demo_env (delete "query" demo_file_job) "stash/run" (1 # 4)
    (mkWorld [ Returned (remote_id "file-1"); Returned (remote_id "vs-1");
               Returned (membership "in_progress" None);
               Returned (membership "in_progress" None); Raised rate_limited;
               Returned (membership "completed" None);
               Returned (remote_id "vs-1") ] 0)
  = (Exc (mkExn KeyError "'query'"),
     [ Remote (files_create "docs/my_document.pdf" "assistants")
              (Some (Returned (remote_id "file-1")));
       Remote (vector_stores_create "temp_vs_my_document_20250101_000000")
              (Some (Returned (remote_id "vs-1")));
       Remote (vector_stores_files_create "vs-1" "file-1")
              (Some (Returned (membership "in_progress" None)));
       Remote (vector_stores_files_retrieve "vs-1" "file-1")
              (Some (Returned (membership "in_progress" None)));
       Sleep 5;
       Remote (vector_stores_files_retrieve "vs-1" "file-1") (Some (Raised rate_limited));
       Sleep (5 * 2);
       Remote (vector_stores_files_retrieve "vs-1" "file-1")
              (Some (Returned (membership "completed" None)));
       Remote (vector_stores_delete "vs-1") (Some (Returned (remote_id "vs-1"))) ],
     mkWorld [] 1).
Proof.
  assert (Hpre : Forall (fun r => retried r = true)
                   [Returned (membership "in_progress" None); Raised rate_limited])
    by (repeat constructor).
  exact (X11_file_job_without_query_sets_up_first demo_env (delete "query" demo_file_job)
           "file" "docs/my_document.pdf" "stash/run" (1 # 4)
           (remote_id "file-1") (remote_id "vs-1")
           (membership "in_progress" None)
           [Returned (membership "in_progress" None); Raised rate_limited]
           (membership "completed" None)
           (Returned (remote_id "vs-1")) [] 0
           eq_refl eq_refl eq_refl eq_refl eq_refl eq_refl Hpre eq_refl eq_refl).
Defined.

Lemma X12_witness :
  process_job demo_env demo_file_job "stash/run" (1 # 4)
    (mkWorld [ Returned (remote_id "file-1"); Returned (remote_id "vs-1");
               Returned (membership "in_progress" None);
               Returned (membership "in_progress" None); Raised rate_limited;
               Returned (membership "completed" None);
               Raised rate_limited; Raised connection_reset ] 0)
  = (Exc rate_limited,
     [ Remote (files_create "docs/my_document.pdf" "assistants")
              (Some (Returned (remote_id "file-1")));
       Remote (vector_stores_create "temp_vs_my_document_20250101_000000")
              (Some (Returned (remote_id "vs-1")));
       Remote (vector_stores_files_create "vs-1" "file-1")
              (Some (Returned (membership "in_progress" None)));
       Remote (vector_stores_files_retrieve "vs-1" "file-1")
              (Some (Returned (membership "in_progress" None)));
       Sleep 5;
       Remote (vector_stores_files_retrieve "vs-1" "file-1") (Some (Raised rate_limited));
       Sleep (5 * 2);
       Remote (vector_stores_files_retrieve "vs-1" "file-1")
              (Some (Returned (membership "completed" None)));
       Remote (responses_create "gpt-4o-mini" [file_search ["vs-1"]]
                 "Summarize the document.")
              (Some (Raised rate_limited));
       Remote (vector_stores_delete "vs-1") (Some (Raised connection_reset)) ],
     mkWorld [] 1).
Proof.
  assert (Hpre : Forall (fun r => retried r = true)
                   [Returned (membership "in_progress" None); Raised rate_limited])
    by (repeat constructor).
  exact (X12_failed_cleanup_keeps_the_query_error demo_env demo_file_job "file"
           "docs/my_document.pdf" "Summarize the document." "stash/run" (1 # 4)
           (remote_id "file-1") (remote_id "vs-1")
           (membership "in_progress" None)
           [Returned (membership "in_progress" None); Raised rate_limited]
           (membership "completed" None)
           rate_limited (Raised connection_reset) [] 0
           eq_refl eq_refl eq_refl eq_refl eq_refl eq_refl Hpre eq_refl eq_refl).
Defined.

(** ** The type of a job *)

Lemma file_job_ignores_type env job ty model :
  file_job env (<["type" := ty]> job) model = file_job env job model.
Proof.
  unfold file_job, getitem.
  rewrite !lookup_insert_ne by discriminate. reflexivity.
Qed.

(** X9.  [process_job] reads the type of a job in lower case only: two jobs
    that differ in the case of the letters of their type ("FILE", "File",
    "file") are processed alike, on every script of replies. *)
Theorem X9_job_type_is_case_insensitive :
  forall env (job : Job) ty1 ty2 outdir sleep_s w,
    lower ty1 = lower ty2 ->
    process_job env (<["type" := ty1]> job) outdir sleep_s w
    = process_job env (<["type" := ty2]> job) outdir sleep_s w.
Proof.
  intros env job ty1 ty2 outdir sleep_s w Hlow.
  rewrite !process_job_run, !lookup_insert_eq. cbv zeta.
  rewrite !file_job_ignores_type. unfold getitem.
  rewrite !lookup_insert_ne by discriminate.
  rewrite Hlow. reflexivity.
Qed.

Lemma X9_witness :
  process_job demo_env upper_file_job "stash/run" (1 # 4) world_success
  = process_job demo_env (<["type" := "file"]> demo_file_job) "stash/run" (1 # 4)
      world_success.
Proof.
  unfold upper_file_job.
  exact (X9_job_type_is_case_insensitive demo_env demo_file_job "FILE" "file"
           "stash/run" (1 # 4) world_success eq_refl).
Defined.

(** ** The job loop, as a whole *)

Lemma job_loop_log env outdir sleep_s jobs :
  forall i n w n' evs w',
    job_loop env outdir sleep_s i jobs n w = (Ret n', evs, w') ->
    logged evs = failures_of i (dispatch_outcomes env outdir sleep_s jobs w)
    /\ (length (written evs) + n' = length jobs + n)%nat.
Proof.
  induction jobs as [|[job|msg] rest IH]; intros i n w n' evs w' Hrun; [| |discriminate].
  - cbn in Hrun. injection Hrun as <- <- _. split; reflexivity.
  - rewrite job_loop_step in Hrun. cbn [dispatch_outcomes].
    pose proof (process_job_quiet env job outdir sleep_s w) as Hq.
    destruct (process_job env job outdir sleep_s w) as [[[[]|e|] evs1] w1];
      [| |discriminate].
    + destruct Hq as (_ & Hl & out & _ & Hw).
      destruct (job_loop env outdir sleep_s (S i) rest n w1) as [[o2 evs2] w2] eqn:E2.
      cbn [after app] in Hrun. injection Hrun as -> <- _.
      destruct (IH _ _ _ _ _ _ E2) as [IH1 IH2].
      cbn [logged written failures_of].
      rewrite logged_app, written_app, Hl, Hw, IH1, length_app. cbn. split; [reflexivity|lia].
    + destruct Hq as (_ & Hl & Hw).
      destruct (stops_the_loop e); [discriminate|].
      destruct (job_loop env outdir sleep_s (S i) rest (n + 1) w1) as [[o2 evs2] w2] eqn:E2.
      cbn [after app] in Hrun. injection Hrun as -> <- _.
      destruct (IH _ _ _ _ _ _ E2) as [IH1 IH2].
      cbn [logged written failures_of].
      rewrite !logged_app, !written_app, Hl, Hw, IH1, !length_app. cbn.
      split; [reflexivity|lia].
Qed.

(** X13.  When the job loop ends, its failure log is the list of the jobs on
    which [process_job] raised, in order, each with its number in the list,
    counted from 1, and the class of the exception it raised. *)
Theorem X13_failure_log_names_the_failing_jobs :
  forall env outdir sleep_s jobs w job_failures evs w',
    job_loop env outdir sleep_s 1 jobs 0 w = (Ret job_failures, evs, w') ->
    logged evs = failures_of 1 (dispatch_outcomes env outdir sleep_s jobs w).
Proof.
  intros env outdir sleep_s jobs w n evs w' Hrun.
  exact (proj1 (job_loop_log env outdir sleep_s jobs 1 0 w n evs w' Hrun)).
Qed.

(** X15.  When the job loop ends, every job has either written its one
    output or been counted as a failure: the number of writes and the
    number of failures add up to the number of jobs. *)
Theorem X15_every_job_writes_or_fails :
  forall env outdir sleep_s jobs w job_failures evs w',
    job_loop env outdir sleep_s 1 jobs 0 w = (Ret job_failures, evs, w') ->
    (length (written evs) + job_failures = length jobs)%nat.
Proof.
  intros env outdir sleep_s jobs w n evs w' Hrun.
  pose proof (proj2 (job_loop_log env outdir sleep_s jobs 1 0 w n evs w' Hrun)). lia.
Qed.

(** The loop on a list in two parts. *)
Lemma job_loop_app :
  forall env outdir sleep_s jobs1 jobs2 i n w,
    job_loop env outdir sleep_s i (jobs1 ++ jobs2) n w
    = match job_loop env outdir sleep_s i jobs1 n w with
      | (Ret n1, evs1, w1) =>
          after evs1 (job_loop env outdir sleep_s (i + length jobs1) jobs2 n1 w1)
      | (Exc e, evs1, w1) => (Exc e, evs1, w1)
      | (Hang, evs1, w1) => (Hang, evs1, w1)
      end.
Proof.
  intros env outdir sleep_s jobs1 jobs2.
  induction jobs1 as [|[job|msg] rest IH]; intros i n w; [| |reflexivity].
  - cbn [app length job_loop]. unfold ret. rewrite Nat.add_0_r.
    destruct (job_loop env outdir sleep_s i jobs2 n w) as [[o evs] w']. reflexivity.
  - cbn [app length]. rewrite !job_loop_step.
    replace (i + S (length rest))%nat with (S i + length rest)%nat by lia.
    destruct (process_job env job outdir sleep_s w) as [[[[]|e|] evs1] w1].
    + rewrite IH.
      destruct (job_loop env outdir sleep_s (S i) rest n w1) as [[[n1|e1|] evs2] w2];
        cbn [after]; try reflexivity.
      now rewrite after_after.
    + destruct (stops_the_loop e); [reflexivity|]. rewrite IH.
      destruct (job_loop env outdir sleep_s (S i) rest (n + 1) w1)
        as [[[n1|e1|] evs2] w2]; cbn [after]; try reflexivity.
      now rewrite after_after.
    + reflexivity.
Qed.

(** X14.  Running a list of jobs is running its first part and then the
    rest, with the numbering, the failure count and the script of replies
    carried over; when the first part does not end, neither does the
    whole. *)
Theorem X14_job_loop_runs_part_after_part :
  forall env outdir sleep_s jobs1 jobs2 i n w,
    job_loop env outdir sleep_s i (jobs1 ++ jobs2) n w
    = match job_loop env outdir sleep_s i jobs1 n w with
      | (Ret n1, evs1, w1) =>
          after evs1 (job_loop env outdir sleep_s (i + length jobs1) jobs2 n1 w1)
      | (Exc e, evs1, w1) => (Exc e, evs1, w1)
      | (Hang, evs1, w1) => (Hang, evs1, w1)
      end.
Proof. exact job_loop_app. Qed.

Lemma process_job_balanced env job outdir sleep_s w :
  match process_job env job outdir sleep_s w with
  | (Hang, _, _) => True
  | (_, evs, _) =>
      Forall (fun v => truthy v = true) (vs_created evs) ->
      vs_deleted evs = vs_created evs
  end.
Proof.
  pose proof (process_job_footprint env job outdir sleep_s w) as H.
  assert (Hq : forall v f,
            Forall (fun v => truthy v = true) (fp_vs_created (fp_queried v f)) ->
            fp_vs_deleted (fp_queried v f) = fp_vs_created (fp_queried v f)).
  { intros v f Hv. cbn in *. inversion Hv as [|? ? Ht _]. now rewrite Ht. }
  destruct (process_job env job outdir sleep_s w) as [[[[]|e|] evs] w']; trivial;
    change (vs_created evs) with (fp_vs_created (footprint_of evs));
    change (vs_deleted evs) with (fp_vs_deleted (footprint_of evs)).
  - destruct H as (out & _ & [->|(v & f & ->)]); [reflexivity|]. apply (Hq v f).
  - destruct H as [->|[(f & ->)|[(v & f & ->)|(v & f & ->)]]];
      try reflexivity. apply (Hq v f).
Qed.

(** X16.  No vector store outlives a run that ends: when the job loop ends
    and the identifiers of the stores created are not empty, the deletion
    has been called on exactly the stores created, once each and in the
    order of their creation. *)
Theorem X16_run_deletes_every_store_it_created :
  forall env outdir sleep_s jobs i n w n' evs w',
    job_loop env outdir sleep_s i jobs n w = (Ret n', evs, w') ->
    Forall (fun v => truthy v = true) (vs_created evs) ->
    vs_deleted evs = vs_created evs.
Proof.
  intros env outdir sleep_s jobs.
  induction jobs as [|[job|msg] rest IH]; intros i n w n' evs w' Hrun Hids;
    [| |discriminate].
  - cbn in Hrun. injection Hrun as _ <- _. reflexivity.
  - rewrite job_loop_step in Hrun.
    pose proof (process_job_balanced env job outdir sleep_s w) as Hb.
    destruct (process_job env job outdir sleep_s w) as [[[[]|e|] evs1] w1];
      [| |discriminate].
    + destruct (job_loop env outdir sleep_s (S i) rest n w1) as [[o2 evs2] w2] eqn:E2.
      cbn [after app] in Hrun. injection Hrun as -> <- _.
      cbn [vs_created vs_deleted] in *.
      rewrite vs_created_app in Hids. apply Forall_app in Hids as [H1 H2].
      rewrite vs_deleted_app, vs_created_app, (Hb H1).
      f_equal. exact (IH _ _ _ _ _ _ E2 H2).
    + destruct (stops_the_loop e); [discriminate|].
      destruct (job_loop env outdir sleep_s (S i) rest (n + 1) w1) as [[o2 evs2] w2] eqn:E2.
      cbn [after app] in Hrun. injection Hrun as -> <- _.
      cbn [vs_created vs_deleted] in *.
      rewrite !vs_created_app in Hids. cbn [vs_created] in Hids.
      rewrite app_nil_r in Hids. apply Forall_app in Hids as [H1 H2].
      rewrite !vs_deleted_app, !vs_created_app. cbn [vs_deleted vs_created].
      rewrite !app_nil_r, (Hb H1).
      f_equal. exact (IH _ _ _ _ _ _ E2 H2).
Qed.

Lemma X13_witness :
  logged (snd (fst (job_loop demo_env "stash/run" (1 # 4) 1 three_jobs 0 world_two_answers)))
  = failures_of 1 (dispatch_outcomes demo_env "stash/run" (1 # 4) three_jobs world_two_answers).
Proof.
  destruct (job_loop demo_env "stash/run" (1 # 4) 1 three_jobs 0 world_two_answers)
    as [[o evs] w'] eqn:E.
  assert (Ho : o = Ret 1%nat) by (vm_compute in E; now injection E as <- _ _).
  subst o.
  exact (X13_failure_log_names_the_failing_jobs demo_env "stash/run" (1 # 4) three_jobs
           world_two_answers 1%nat evs w' E).
Defined.

Lemma X15_witness :
  (length (written (snd (fst
     (job_loop demo_env "stash/run" (1 # 4) 1 three_jobs 0 world_two_answers)))) + 1
   = length three_jobs)%nat.
Proof.
  destruct (job_loop demo_env "stash/run" (1 # 4) 1 three_jobs 0 world_two_answers)
    as [[o evs] w'] eqn:E.
  assert (Ho : o = Ret 1%nat) by (vm_compute in E; now injection E as <- _ _).
  subst o.
  exact (X15_every_job_writes_or_fails demo_env "stash/run" (1 # 4) three_jobs
           world_two_answers 1%nat evs w' E).
Defined.

Lemma X16_witness :
  vs_deleted (snd (fst
    (job_loop demo_env "stash/run" (1 # 4) 1 [Mapping demo_file_job] 0 world_success)))
  = vs_created (snd (fst
    (job_loop demo_env "stash/run" (1 # 4) 1 [Mapping demo_file_job] 0 world_success))).
Proof.
  destruct (job_loop demo_env "stash/run" (1 # 4) 1 [Mapping demo_file_job] 0 world_success)
    as [[o evs] w'] eqn:E.
  assert (Ho : o = Ret 0%nat) by (vm_compute in E; now injection E as <- _ _).
  assert (Hc : vs_created evs = ["vs-1"]) by (vm_compute in E; now injection E as _ <- _).
  subst o.
  apply (X16_run_deletes_every_store_it_created demo_env "stash/run" (1 # 4)
           [Mapping demo_file_job] 1 0 world_success 0%nat evs w' E).
  rewrite Hc. repeat constructor.
Defined.

(** X19.  A file whose processing fails on the remote side, after any run
    of intermediate statuses and [APIError]s, is reported by the job loop as
    an unexpected error, not as an error of the API: the [RuntimeError] of
    the polling loop reaches the last [except] clause.  The store and the
    file have been deleted by then, the failure is counted and the loop goes
    on. *)
Theorem X19_processing_failure_is_logged_as_unexpected :
  forall env job ty file_path outdir sleep_s file_obj vector_store vs_file pre o r1 r2
         script c i rest n,
    job !! "type" = Some ty ->
    lower ty = "file" ->
    job !! "file_path" = Some file_path ->
    path_exists env (expanduser env file_path) = true ->
    open_error env (expanduser env file_path) = None ->
    Forall (fun r => retried r = true) pre ->
    obj_status o = "failed" ->
    job_loop env outdir sleep_s i (Mapping job :: rest) n
      (mkWorld (Returned file_obj :: Returned vector_store :: Returned vs_file
                :: pre ++ Returned o :: r1 :: r2 :: script) c)
    = after
        (JobHeader i job
         :: setup_events env (expanduser env file_path) c file_obj vector_store vs_file
         ++ retry_events env (obj_id vector_store) (obj_id file_obj) pre
         ++ [ Remote (vector_stores_files_retrieve (obj_id vector_store) (obj_id file_obj))
                     (Some (Returned o));
              Remote (vector_stores_delete (obj_id vector_store)) (Some r1);
              Remote (files_delete (obj_id file_obj)) (Some r2);
              JobError i UnexpectedError (processing_failed o) ])
        (job_loop env outdir sleep_s (S i) rest (n + 1) (mkWorld script (S c))).
Proof.
  intros env job ty file_path outdir sleep_s file_obj vector_store vs_file pre o r1 r2
    script c i rest n Hty Hfile Hpath Hex Hopen Hpre Ho.
  rewrite job_loop_step, process_job_run, Hty. cbv zeta. rewrite Hfile.
  cbn [String.eqb Ascii.eqb Bool.eqb].
  unfold file_job. rewrite Hpath, Hex. cbn [negb]. unfold bind at 1.
  rewrite setup_reaches_polling, poll_loop_retried_prefix, poll_loop_failed,
    cleanup_and_raise_run by assumption.
  cbn [after returning app].
  change (stops_the_loop (processing_failed o)) with false. cbv iota.
  change (classify (processing_failed o)) with UnexpectedError.
  rewrite <- !app_assoc. reflexivity.
Qed.

Lemma X19_witness :
  job_loop demo_env "stash/run" (1 # 4) 1 [Mapping demo_file_job] 0
    (mkWorld [ Returned (remote_id "file-1"); Returned (remote_id "vs-1");
               Returned (membership "in_progress" None);
               Returned (membership "in_progress" None); Raised rate_limited;
               Returned (membership "failed" (Some "bad format"));
               Returned (remote_id "vs-1"); Returned (remote_id "file-1") ] 0)
  = (Ret 1%nat,
     [ JobHeader 1 demo_file_job;
       Remote (files_create "docs/my_document.pdf" "assistants")
              (Some (Returned (remote_id "file-1")));
       Remote (vector_stores_create "temp_vs_my_document_20250101_000000")
              (Some (Returned (remote_id "vs-1")));
       Remote (vector_stores_files_create "vs-1" "file-1")
              (Some (Returned (membership "in_progress" None)));
       Remote (vector_stores_files_retrieve "vs-1" "file-1")
              (Some (Returned (membership "in_progress" None)));
       Sleep 5;
       Remote (vector_stores_files_retrieve "vs-1" "file-1") (Some (Raised rate_limited));
       Sleep (5 * 2);
       Remote (vector_stores_files_retrieve "vs-1" "file-1")
              (Some (Returned (membership "failed" (Some "bad format"))));
       Remote (vector_stores_delete "vs-1") (Some (Returned (remote_id "vs-1")));
       Remote (files_delete "file-1") (Some (Returned (remote_id "file-1")));
       JobError 1 UnexpectedError
         (mkExn RuntimeError "File processing failed: bad format") ],
     mkWorld [] 1).
Proof.
  assert (Hpre : Forall (fun r => retried r = true)
                   [Returned (membership "in_progress" None); Raised rate_limited])
    by (repeat constructor).
  exact (X19_processing_failure_is_logged_as_unexpected demo_env demo_file_job "file"
           "docs/my_document.pdf" "stash/run" (1 # 4)
           (remote_id "file-1") (remote_id "vs-1") (membership "in_progress" None)
           [Returned (membership "in_progress" None); Raised rate_limited]
           (membership "failed" (Some "bad format"))
           (Returned (remote_id "vs-1")) (Returned (remote_id "file-1")) [] 0 1 [] 0
           eq_refl eq_refl eq_refl eq_refl eq_refl Hpre eq_refl).
Defined.

(** ** Start-up and the run directory *)

(** X18.  The order of the start-up of [cli].  Without an API key (unset
    or empty) the process exits with status 1 before anything is done: no
    clock is read and no directory is made.  With a key, the run directory
    is made before the jobs file is read, so that a jobs file that cannot be
    read or holds no list leaves an empty run directory behind and exit
    status 1, no call having been made.  An empty list of jobs gives a
    summary of no failure and exit status 0. *)
Theorem X18_cli_start_up_order :
  forall env0 args OPENAI_API_KEY w,
    let outdir := joinpath env0 (args_outdir args) (timestamp_at env0 (clock w)) in
    let w1 := mkWorld (replies w) (S (clock w)) in
    (truthy (default "" OPENAI_API_KEY) = false ->
       cli env0 args OPENAI_API_KEY w = (Ret 1%nat, [], w))
    /\ (truthy (default "" OPENAI_API_KEY) = true ->
        mkdir_error env0 outdir = None ->
        (forall jobs, args_jobs args <> JobList jobs) ->
        cli env0 args OPENAI_API_KEY w = (Ret 1%nat, [MkDir outdir], w1))
    /\ (truthy (default "" OPENAI_API_KEY) = true ->
        mkdir_error env0 outdir = None ->
        args_jobs args = JobList [] ->
        cli env0 args OPENAI_API_KEY w = (Ret 0%nat, [MkDir outdir; Summary 0], w1)).
Proof.
  intros env0 args key w outdir w1. subst outdir w1.
  split; [|split].
  - intros Hk. rewrite cli_run. cbv zeta. now rewrite Hk.
  - intros Hk Hm Hj. rewrite cli_run. cbv zeta. rewrite Hk, Hm. cbn [negb].
    destruct (args_jobs args) as [jobs| | | |]; try reflexivity.
    now destruct (Hj jobs).
  - intros Hk Hm Hj. rewrite cli_run. cbv zeta. rewrite Hk, Hm, Hj. reflexivity.
Qed.

Lemma X18_witness :
  cli demo_env demo_args (Some "") world_two_answers = (Ret 1%nat, [], world_two_answers)
  /\ cli demo_env (mkArgs BadYAML "stash" (1 # 4) 5) (Some "sk-test") world_two_answers
     = (Ret 1%nat, [MkDir "stash/20250101_000000"],
        mkWorld (replies world_two_answers) 1)
  /\ cli demo_env (mkArgs (JobList []) "stash" (1 # 4) 5) (Some "sk-test") world_two_answers
     = (Ret 0%nat, [MkDir "stash/20250101_000000"; Summary 0],
        mkWorld (replies world_two_answers) 1).
Proof.
  split; [|split].
  - exact (proj1 (X18_cli_start_up_order demo_env demo_args (Some "") world_two_answers)
             eq_refl).
  - refine (proj1 (proj2 (X18_cli_start_up_order demo_env
               (mkArgs BadYAML "stash" (1 # 4) 5) (Some "sk-test") world_two_answers))
               eq_refl eq_refl _).
    intros jobs. discriminate.
  - exact (proj2 (proj2 (X18_cli_start_up_order demo_env
               (mkArgs (JobList []) "stash" (1 # 4) 5) (Some "sk-test") world_two_answers))
               eq_refl eq_refl eq_refl).
Defined.

(** ** What any one job leaves *)

(** X20.  On every script of replies, a job that ends has uploaded at most
    one file and created at most one vector store, and a store only after
    an upload that succeeded. *)
Theorem X20_at_most_one_file_and_store_per_job :
  forall env job outdir sleep_s w,
    match process_job env job outdir sleep_s w with
    | (Hang, _, _) => True
    | (_, evs, _) =>
        (length (vs_created evs) <= length (files_uploaded evs))%nat
        /\ (length (files_uploaded evs) <= 1)%nat
    end.
Proof.
  intros env job outdir sleep_s w.
  pose proof (process_job_footprint env job outdir sleep_s w) as H.
  destruct (process_job env job outdir sleep_s w) as [[[[]|e|] evs] w']; trivial;
    change (vs_created evs) with (fp_vs_created (footprint_of evs));
    change (files_uploaded evs) with (fp_files_uploaded (footprint_of evs)).
  - destruct H as (out & _ & [->|(v & f & ->)]); cbn; lia.
  - destruct H as [->|[(f & ->)|[(v & f & ->)|(v & f & ->)]]]; cbn; lia.
Qed.

(** X21.  A job that fails leaves no output: when [process_job] raises,
    whatever the step that raised, nothing has been written; when it
    returns, it has written exactly once, to [outdir / out]. *)
Theorem X21_failed_job_writes_nothing :
  forall env job outdir sleep_s w,
    match process_job env job outdir sleep_s w with
    | (Ret _, evs, _) =>
        exists out, job !! "out" = Some out /\ written evs = [joinpath env outdir out]
    | (Exc _, evs, _) => written evs = []
    | (Hang, _, _) => True
    end.
Proof.
  intros env job outdir sleep_s w.
  pose proof (process_job_quiet env job outdir sleep_s w) as H.
  destruct (process_job env job outdir sleep_s w) as [[[[]|e|] evs] w']; trivial.
  - now destruct H as (_ & _ & H).
  - now destruct H as (_ & _ & H).
Qed.

(** ** What leaves the job loop *)


(** X23.  The two [ValueError]s of [process_job]: a job whose [type] is
    neither [web] nor [file], and a [file] job without [file_path], raise
    [ValueError] before any call on the client; the job loop logs it as a
    configuration error, counts it and goes on with the next job. *)
Theorem X23_configuration_errors_are_counted :
  forall env job ty outdir sleep_s w i rest n,
    job !! "type" = Some ty ->
    (lower ty <> "web" /\ lower ty <> "file")
    \/ (lower ty = "file" /\ job !! "file_path" = None) ->
    exists e,
      cls e = ValueError
      /\ process_job env job outdir sleep_s w = (Exc e, [], w)
      /\ job_loop env outdir sleep_s i (Mapping job :: rest) n w
         = after [JobHeader i job; JobError i ConfigurationError e]
                 (job_loop env outdir sleep_s (S i) rest (n + 1) w).
Proof.
  intros env job ty outdir sleep_s w i rest n Hty Hcase.
  assert (H : exists m, process_job env job outdir sleep_s w
                        = (Exc (mkExn ValueError m), [], w)).
  { rewrite process_job_run, Hty. cbv zeta.
    destruct Hcase as [[Hweb Hfile]|[Hfile Hpath]].
    - apply String.eqb_neq in Hweb, Hfile. rewrite Hweb, Hfile. eexists. reflexivity.
    - rewrite Hfile. cbn [String.eqb Ascii.eqb Bool.eqb].
      unfold file_job, bind. rewrite Hpath. eexists. reflexivity. }
  destruct H as [m Hrun]. exists (mkExn ValueError m).
  split; [reflexivity|]. split; [exact Hrun|].
  now rewrite job_loop_step, Hrun.
Qed.

Lemma X23_witness :
  exists e,
    cls e = ValueError
    /\ process_job demo_env (<["type" := "PDF"]> demo_file_job) "stash/run" (1 # 4)
         world_two_answers
       = (Exc e, [], world_two_answers)
    /\ job_loop demo_env "stash/run" (1 # 4) 1
         [Mapping (<["type" := "PDF"]> demo_file_job);
          Mapping (web_job "krill biomass 2024" "krill.json")] 0 world_two_answers
       = after [JobHeader 1 (<["type" := "PDF"]> demo_file_job);
                JobError 1 ConfigurationError e]
               (job_loop demo_env "stash/run" (1 # 4) 2
                  [Mapping (web_job "krill biomass 2024" "krill.json")] (0 + 1)
                  world_two_answers).
Proof.
  assert (Hty : <["type" := "PDF"]> demo_file_job !! "type" = Some "PDF")
    by (vm_compute; reflexivity).
  apply (X23_configuration_errors_are_counted demo_env (<["type" := "PDF"]> demo_file_job)
           "PDF" "stash/run" (1 # 4) world_two_answers 1
           [Mapping (web_job "krill biomass 2024" "krill.json")] 0 Hty).
  left. split; vm_compute; discriminate.
Defined.

(** X24.  The header line of the job loop is outside its [try]: on an entry
    on which the header raises, the loop ends with that [AttributeError]
    after the jobs before it, which it had attempted in order; the entries
    after it are not attempted and nothing more is counted. *)
Theorem X24_header_error_stops_the_run :
  forall env outdir sleep_s jobs1 message jobs2 i n w n1 evs1 w1,
    job_loop env outdir sleep_s i jobs1 n w = (Ret n1, evs1, w1) ->
    job_loop env outdir sleep_s i (jobs1 ++ BadEntry message :: jobs2) n w
    = (Exc (mkExn (OtherException "AttributeError") message), evs1, w1)
    /\ map Mapping (attempted evs1) = jobs1.
Proof.
  intros env outdir sleep_s jobs1 message jobs2 i n w n1 evs1 w1 Hrun.
  pose proof (job_loop_outcome env outdir sleep_s jobs1 i n w) as Hout.
  cbv zeta in Hout. rewrite job_loop_app, Hrun. rewrite Hrun in Hout.
  split; [|exact (proj1 Hout)].
  cbn [job_loop]. unfold after, raise. now rewrite app_nil_r.
Qed.

Lemma X24_witness :
  exists evs1,
    job_loop demo_env "stash/run" (1 # 4) 1 null_type_jobs 0 world_two_answers
    = (Exc (mkExn (OtherException "AttributeError")
              "'NoneType' object has no attribute 'upper'"),
       evs1, mkWorld [Returned (answer "About 400 Mt.")] 1)
    /\ map Mapping (attempted evs1)
       = [Mapping (web_job "latest emperor penguin population study" "penguin_pop.json")].
Proof.
  destruct (job_loop demo_env "stash/run" (1 # 4) 1
              [Mapping (web_job "latest emperor penguin population study" "penguin_pop.json")]
              0 world_two_answers) as [[o evs1] w1] eqn:E.
  assert (Ho : o = Ret 0%nat /\ w1 = mkWorld [Returned (answer "About 400 Mt.")] 1)
    by (vm_compute in E; now injection E as <- _ <-).
  destruct Ho as [-> ->]. exists evs1.
  exact (X24_header_error_stops_the_run demo_env "stash/run" (1 # 4)
           [Mapping (web_job "latest emperor penguin population study" "penguin_pop.json")]
           "'NoneType' object has no attribute 'upper'"
           [Mapping (web_job "krill biomass 2024" "krill.json")]
           1 0 world_two_answers 0%nat evs1 _ E).
Defined.
